(** * geo-web: the image-geolocation client and its upload proxy

    A shallow embedding of the two source files of the repository:

    - [src/app/page.tsx]: the React component [GeoPage] (state, the event
      handlers [handleFileSelection], [onFileChange], [handleGlobalPaste],
      [onPasteClick], [handleLocate], and the JSX it returns);
    - the route handler [POST] of the upload proxy.

    [page.tsx] holds two revisions of the component, one after the other.
    They have the same state, handlers and structure and differ in styling
    and in two texts (the message for a refused clipboard read and the label
    of the busy button); the first revision is the one modelled.  The two
    effect hooks (revoking the preview URL, registering the paste listener)
    write none of the state cells and are left out.

    JavaScript values that the program handles are modelled as they exist at
    run time: JSON values, binary64 numbers, strings, exceptions carrying a
    message.  An [async] function is cut at its [await] points; what the
    environment answers at an [await] (a clipboard read, a [fetch], a body
    parse) is an input of the model. *)

From Stdlib Require Import ZArith String Ascii List Bool Lia.
From Stdlib Require Import Floats.SpecFloat.
From Stdlib Require Import DecimalString.
From stdpp Require Import base option list strings gmap.

Set Warnings "-register-all".

Local Open Scope string_scope.
Local Open Scope Z_scope.

(** ** JavaScript numbers

    A JS Number is an IEEE 754 binary64 value.  [spec_float] with precision
    53 and maximal exponent 1024 is exactly that format; [SFmul] is the
    correctly rounded product. *)
Module JsNumber.

Definition prec : Z := 53.
Definition emax : Z := 1024.

Definition Number : Type := spec_float.

Definition NaN : Number := S754_nan.
Definition of_Z (z : Z) : Number := binary_normalize prec emax z 0 false.
Definition mul (x y : Number) : Number := SFmul prec emax x y.
Definition div (x y : Number) : Number := SFdiv prec emax x y.

(** The Number a decimal literal [m / 10^k] denotes (both operands are
    exact for [|m| < 2^53] and [k <= 22], so the correctly rounded quotient
    is the nearest binary64 value, as a JSON parser produces it). *)
Definition decimal (m : Z) (k : Z) : Number := div (of_Z m) (of_Z (10 ^ k)).

(** ToBoolean on a Number: false for [+0], [-0] and [NaN]. *)
Definition truthy (x : Number) : bool :=
  match x with
  | S754_zero _ | S754_nan => false
  | _ => true
  end.

(** Decimal digits of a non-negative integer. *)
Definition digits (n : Z) : string := NilZero.string_of_int (Z.to_int n).

Fixpoint zeros (n : nat) : string :=
  match n with
  | O => ""
  | S n' => String "0" (zeros n')
  end.

Definition str_take (n : nat) (s : string) : string := substring 0 n s.
Definition str_drop (n : nat) (s : string) : string :=
  substring n (String.length s - n)%nat s.

(** Comparison of [a * 10^p] with [b * 2^e], for positive [a] and [b] and
    any integers [p] and [e]: negative powers are moved to the other side. *)
Definition cmp_scaled (a p b e : Z) : comparison :=
  Z.compare (a * 10 ^ Z.max p 0 * 2 ^ Z.max (- e) 0)
            (b * 2 ^ Z.max e 0 * 10 ^ Z.max (- p) 0).

(** [floor (m * 2^e / 10^p)]. *)
Definition floor_scaled (m e p : Z) : Z :=
  (m * 2 ^ Z.max e 0 * 10 ^ Z.max (- p) 0)
  / (2 ^ Z.max (- e) 0 * 10 ^ Z.max p 0).

(** *** Number.prototype.toFixed

    ECMA-262, Number.prototype.toFixed(fractionDigits): for a finite
    [x < 10^21], "let n be an integer for which n / 10^f - x is as close to
    zero as possible; if there are two such n, pick the larger n". *)
Definition nearest_scaled (m e : Z) (f : nat) : Z :=
  let q := m * 10 ^ Z.of_nat f in
  if 0 <=? e then q * 2 ^ e
  else (2 * q + 2 ^ (- e)) / (2 * 2 ^ (- e)).

Definition fixed_point (n : Z) (f : nat) : string :=
  let m := digits n in
  match f with
  | O => m
  | _ =>
      let k := String.length m in
      let m' := if (k <=? f)%nat then zeros (f + 1 - k)%nat ++ m else m in
      let k' := String.length m' in
      str_take (k' - f)%nat m' ++ "." ++ str_drop (k' - f)%nat m'
  end.

(** *** Number::toString (radix 10)

    "Let n, k, and s be integers such that k >= 1, 10^(k-1) <= s < 10^k,
    the Number value for s * 10^(n-k) is x, and k is as small as possible."
    The Number value of a real is its nearest binary64 value, ties to the
    even significand: [rounds_to] tests that on the interval between the
    midpoints to the two neighbours of [x = m * 2^e]. *)
Definition rounds_to (m e s p : Z) : bool :=
  let narrow := (m =? 2 ^ (prec - 1)) && (3 - emax - prec <? e) in
  let e2 := if narrow then e - 2 else e - 1 in
  let lo := if narrow then 4 * m - 1 else 2 * m - 1 in
  let hi := if narrow then 4 * m + 2 else 2 * m + 1 in
  let closed := Z.even m in
  match cmp_scaled s p lo e2, cmp_scaled s p hi e2 with
  | Gt, Lt => true
  | Eq, _ => closed
  | _, Eq => closed
  | _, _ => false
  end.

(** The decimal exponent [n] with [10^(n-1) <= m * 2^e < 10^n]. *)
Fixpoint exponent10_below (fuel : nat) (m e n : Z) : Z :=
  match fuel with
  | O => n
  | S fuel' =>
      match cmp_scaled 1 (n - 1) m e with
      | Gt => exponent10_below fuel' m e (n - 1)
      | _ => n
      end
  end.

Definition exponent10 (m e : Z) : Z :=
  let ip := floor_scaled m e 0 in
  if 0 <? ip then Z.of_nat (String.length (digits ip))
  else exponent10_below 400 m e 0.

(** The candidates with [k] digits next to [x]: [floor] and [floor + 1] of
    [x / 10^(n-k)], the second renormalised when it reaches [10^k]. *)
Definition candidates (m e n k : Z) : list (Z * Z) :=
  let p := n - k in
  let s := floor_scaled m e p in
  let up := if s + 1 =? 10 ^ k then (10 ^ (k - 1), n + 1) else (s + 1, n) in
  let below := if (10 ^ (k - 1) <=? s) && rounds_to m e s p then [(s, n)] else [] in
  let above := if rounds_to m e (fst up) (snd up - k) then [up] else [] in
  match below, above with
  | [(s1, n1)], [(s2, n2)] =>
      (* both round to x: the closer one, the even one on a tie *)
      match cmp_scaled (s1 + s2) p (2 * m) e with
      | Lt => [(s2, n2)]
      | Gt => [(s1, n1)]
      | Eq => if Z.even s1 then [(s1, n1)] else [(s2, n2)]
      end
  | _, _ => (below ++ above)%list
  end.

Fixpoint shortest_from (fuel : nat) (m e n k : Z) : Z * Z * Z :=
  match fuel with
  | O => (m, 0, 0)
  | S fuel' =>
      match candidates m e n k with
      | (s, n') :: _ => (s, n', k)
      | [] => shortest_from fuel' m e n (k + 1)
      end
  end.

(** [(s, n, k)] for a positive finite [m * 2^e]; 17 digits always suffice
    for binary64. *)
Definition shortest (m e : Z) : Z * Z * Z :=
  shortest_from 17 m e (exponent10 m e) 1.

Definition format_shortest (s n k : Z) : string :=
  let d := digits s in
  if (k <=? n) && (n <=? 21) then d ++ zeros (Z.to_nat (n - k))
  else if (0 <? n) && (n <=? 21) then
    str_take (Z.to_nat n) d ++ "." ++ str_drop (Z.to_nat n) d
  else if (-6 <? n) && (n <=? 0) then
    "0." ++ zeros (Z.to_nat (- n)) ++ d
  else
    let ex := n - 1 in
    let sign := if ex <? 0 then "-" else "+" in
    (if k =? 1 then d else str_take 1 d ++ "." ++ str_drop 1 d)
      ++ "e" ++ sign ++ digits (Z.abs ex).

Definition toString (x : Number) : string :=
  match x with
  | S754_nan => "NaN"
  | S754_zero _ => "0"
  | S754_infinity s => if s then "-Infinity" else "Infinity"
  | S754_finite sg m e =>
      let '(s, n, k) := shortest (Z.pos m) e in
      (if sg then "-" else "") ++ format_shortest s n k
  end.

Definition toFixed (x : Number) (f : nat) : string :=
  match x with
  | S754_nan => "NaN"
  | S754_infinity s => if s then "-Infinity" else "Infinity"
  | S754_zero _ => fixed_point 0 f
  | S754_finite sg m e =>
      match cmp_scaled (10 ^ 21) 0 (Z.pos m) e with
      | Gt => (if sg then "-" else "") ++ fixed_point (nearest_scaled (Z.pos m) e f) f
      | _ => toString x
      end
  end.

End JsNumber.

Import JsNumber (Number).

(** ** JavaScript values

    The values the program receives from [res.json()] are JSON values; a
    property that is not there reads as [undefined], modelled by [None]. *)
Inductive JSON : Type :=
| JNull
| JBool (b : bool)
| JNum (x : Number)
| JStr (s : string)
| JArr (items : list JSON)
| JObj (props : list (string * JSON)).

Abbreviation JsValue := (option JSON).
Abbreviation undefined := (@None JSON).

(** A thrown or rejected value: the program only ever reads [.message]. *)
Record JsError : Type := { message : string }.

(** An [await]ed promise settles to a rejection or to a value. *)
Abbreviation Settled A := (JsError + A)%type.

(** The double quote character, for JSON texts. *)
Definition dquote : string := String "034"%char EmptyString.

(** ToBoolean. *)
Definition truthy (v : JSON) : bool :=
  match v with
  | JNull => false
  | JBool b => b
  | JNum x => JsNumber.truthy x
  | JStr s => negb (String.eqb s "")
  | JArr _ | JObj _ => true
  end.

(** Own property lookup of a JSON object, first binding of the key.  Values
    produced by a JSON parser have one binding per key. *)
Fixpoint lookup_prop (key : string) (props : list (string * JSON)) : JsValue :=
  match props with
  | [] => undefined
  | (k, v) :: rest => if String.eqb k key then Some v else lookup_prop key rest
  end.

(** ToString; [None] when the conversion throws its [TypeError].  An array
    is joined with commas, [null] elements giving the empty string
    (Array.prototype.join), the others converted in turn.  A plain object is
    converted by the inherited [toString], which gives ["[object Object]"],
    unless the object has an own [toString] key: a parsed value is never
    callable, the inherited [valueOf] returns the object itself, and the
    conversion to a primitive fails. *)
Fixpoint ToString (v : JSON) : option string :=
  match v with
  | JNull => Some "null"
  | JBool b => Some (if b then "true" else "false")
  | JNum x => Some (JsNumber.toString x)
  | JStr s => Some s
  | JArr items =>
      (fix join (l : list JSON) : option string :=
         match l with
         | [] => Some ""
         | x :: rest =>
             match (match x with JNull => Some "" | _ => ToString x end) with
             | None => None
             | Some here =>
                 match rest with
                 | [] => Some here
                 | _ =>
                     match join rest with
                     | None => None
                     | Some tail => Some (here ++ "," ++ tail)
                     end
                 end
             end
         end) items
  | JObj props =>
      match lookup_prop "toString" props with
      | Some _ => None
      | None => Some "[object Object]"
      end
  end.

(** What the JavaScript engine and its built-ins contribute and the source
    does not determine: the wording of the errors the engine itself throws,
    the StringToNumber conversion, and JSON serialisation. *)
Inductive EngineFault : Type :=
| ReadOfNull (prop : string)
| ReadOfUndefined (prop : string)
| NotAFunction (prop : string)
| NotPrimitive
| StatusOutOfRange (status : Z)
| NullBodyStatus (status : Z).

Record Engine : Type := {
  fault_message : EngineFault -> string;
  StringToNumber : string -> Number;
  JSON_stringify : JSON -> string
}.

(** ** HTTP as [fetch] shows it *)

Record File : Type := {
  file_name : string;
  file_type : string;
  file_content : string
}.

Record Blob : Type := {
  blob_type : string;
  blob_content : string
}.

(** A FormData entry value is a [File] or a string. *)
Inductive FormDataEntryValue : Type :=
| EntryFile (f : File)
| EntryString (s : string).

(** FormData is an ordered list of entries; names may repeat. *)
Definition FormData : Type := list (string * FormDataEntryValue).

Definition FormData_append (name : string) (v : FormDataEntryValue)
    (fd : FormData) : FormData :=
  (fd ++ [(name, v)])%list.

(** [fd.get(name)]: the first value of that name, or [null]. *)
Fixpoint FormData_get (name : string) (fd : FormData) : option FormDataEntryValue :=
  match fd with
  | [] => None
  | (k, v) :: rest => if String.eqb k name then Some v else FormData_get name rest
  end.

(** A [Response]: its status and what [text()] and [json()] settle to. *)
Record Response : Type := {
  status : Z;
  text : Settled string;
  json : Settled JSON
}.

(** [res.ok]: the status is in the range 200 to 299. *)
Definition ok (res : Response) : bool := (200 <=? status res) && (status res <=? 299).

(** What [await fetch(...)] settles to. *)
Abbreviation FetchOutcome := (Settled Response).

(** Decimal text of an integer, as a template literal prints a status. *)
Definition Z_toString (z : Z) : string := NilZero.string_of_int (Z.to_int z).

(** ** The client: [GeoPage] in [src/app/page.tsx] *)
Module Client.

(** The five [useState] cells of the component. *)
Record State : Type := {
  imageFile : option File;
  previewUrl : option string;
  loading : bool;
  result : JSON;
  error : option string
}.

(** [useState(null)], [useState(false)]. *)
Definition initial : State :=
  {| imageFile := None; previewUrl := None; loading := false;
     result := JNull; error := None |}.

Definition setImageFile (f : option File) (s : State) : State :=
  {| imageFile := f; previewUrl := previewUrl s; loading := loading s;
     result := result s; error := error s |}.
Definition setPreviewUrl (u : option string) (s : State) : State :=
  {| imageFile := imageFile s; previewUrl := u; loading := loading s;
     result := result s; error := error s |}.
Definition setLoading (b : bool) (s : State) : State :=
  {| imageFile := imageFile s; previewUrl := previewUrl s; loading := b;
     result := result s; error := error s |}.
Definition setResult (r : JSON) (s : State) : State :=
  {| imageFile := imageFile s; previewUrl := previewUrl s; loading := loading s;
     result := r; error := error s |}.
Definition setError (e : option string) (s : State) : State :=
  {| imageFile := imageFile s; previewUrl := previewUrl s; loading := loading s;
     result := result s; error := e |}.

(** [handleFileSelection(file)]; [url] is what [URL.createObjectURL(file)]
    returns. *)
Definition handleFileSelection (file : File) (url : string) (s : State) : State :=
  setPreviewUrl (Some url)
    (setImageFile (Some file)
       (setResult JNull
          (setError None s))).

Definition is_image_type (type : string) : bool := String.prefix "image/" type.

(** [onFileChange(e)], with [files = e.target.files]. *)
Definition onFileChange (files : option (list File)) (url : string) (s : State) : State :=
  match files with
  | Some (file :: _) => handleFileSelection file url s
  | _ => s
  end.

(** [handleGlobalPaste(e)], with [clipboardFiles = e.clipboardData?.files]. *)
Definition handleGlobalPaste (clipboardFiles : option (list File)) (url : string)
    (s : State) : State :=
  match clipboardFiles with
  | Some (file :: _) =>
      if is_image_type (file_type file) then handleFileSelection file url s else s
  | _ => s
  end.

(** An item of [navigator.clipboard.read()]. *)
Record ClipboardItem : Type := {
  types : list string;
  getType : string -> Settled Blob
}.

(** The [for] loop of [onPasteClick]: the first item that has an image
    type decides; its blob becomes the file ["pasted-image.png"].  [None]
    when the loop runs to its end. *)
Fixpoint clipboard_image (items : list ClipboardItem) : Settled (option File) :=
  match items with
  | [] => inr None
  | item :: rest =>
      match List.find is_image_type (types item) with
      | Some imageType =>
          match getType item imageType with
          | inl err => inl err
          | inr blob =>
              inr (Some {| file_name := "pasted-image.png";
                           file_type := imageType;
                           file_content := blob_content blob |})
          end
      | None => clipboard_image rest
      end
  end.

(** The [try] block of [onPasteClick] up to the point where it touches
    the state; [clipboard] is what [navigator.clipboard.read()] settles
    to. *)
Definition onPasteClick_try (clipboard : Settled (list ClipboardItem))
    : Settled (option File) :=
  match clipboard with
  | inl err => inl err
  | inr clipboardItems => clipboard_image clipboardItems
  end.

(** [onPasteClick()], once its awaits have settled. *)
Definition onPasteClick (clipboard : Settled (list ClipboardItem)) (url : string)
    (s : State) : State :=
  match onPasteClick_try clipboard with
  | inr (Some file) => handleFileSelection file url s
  | inr None => setError (Some "No image found in clipboard.") s
  | inl _ => setError (Some "Clipboard access denied. Try Ctrl+V.") s
  end.

(** [handleLocate], up to its first [await]: the guard, the three state
    updates and the request handed to [fetch('/api/v1/geolocate', ...)]. *)
Definition handleLocate_start (s : State) : State * option FormData :=
  match imageFile s with
  | None => (s, None)
  | Some file =>
      (setResult JNull (setError None (setLoading true s)),
       Some (FormData_append "file" (EntryFile file) []))
  end.

Section WithEngine.
Variable engine : Engine.

(** [v.error] for a parsed body [v]: a [TypeError] on [null], the own
    property on an object, [undefined] on any other value. *)
Definition read_property (v : JSON) (key : string) : Settled JsValue :=
  match v with
  | JNull => inl {| message := fault_message engine (ReadOfNull key) |}
  | JObj props => inr (lookup_prop key props)
  | _ => inr undefined
  end.

(** The body of the [try] block once [fetch] has settled: the thrown
    error or the parsed [data]. *)
Definition handleLocate_try (fetched : FetchOutcome) : Settled JSON :=
  match fetched with
  | inl err => inl err
  | inr res =>
      if negb (ok res) then
        let errData := match json res with
                       | inl _ => JObj []
                       | inr v => v
                       end in
        let fallback := inl {| message := "Server Error: " ++ Z_toString (status res) |} in
        match read_property errData "error" with
        | inl err => inl err
        | inr field =>
            match field with
            | Some v =>
                if truthy v then
                  match ToString v with
                  | Some msg => inl {| message := msg |}
                  | None => inl {| message := fault_message engine NotPrimitive |}
                  end
                else fallback
            | None => fallback
            end
        end
      else json res
  end.

(** [err.message || "Something went wrong."]. *)
Definition catch_message (err : JsError) : string :=
  if String.eqb (message err) "" then "Something went wrong." else message err.

(** [handleLocate] from the settling of [fetch] on: [try], [catch] and
    [finally].  No state is read or written between the two awaits of
    the [try] block, so they are taken in one step. *)
Definition handleLocate_settle (fetched : FetchOutcome) (s : State) : State :=
  let s' :=
    match handleLocate_try fetched with
    | inr data => setResult data s
    | inl err => setError (Some (catch_message err)) s
    end in
  setLoading false s'.

End WithEngine.

(** *** What [GeoPage] returns *)

Record ResultPanel : Type := {
  latitude_text : string;
  longitude_text : string;
  confidence_bar_width : string;
  confidence_text : string;
  maps_href : string
}.

(** The [{result && (...)}] slot: nothing, the text React prints for a
    falsy number, or the result panel. *)
Inductive ResultSection : Type :=
| NoPanel
| FalsyText (t : string)
| Panel (p : ResultPanel).

Record View : Type := {
  preview_src : option string;
  locate_disabled : bool;
  locate_label : string;
  error_banner : option string;
  result_section : ResultSection
}.

(** [disabled={!imageFile || loading}]. *)
Definition submit_disabled (s : State) : bool :=
  match imageFile s with
  | Some _ => false
  | None => true
  end || loading s.

Definition nonempty (o : option string) : option string :=
  match o with
  | Some t => if String.eqb t "" then None else Some t
  | None => None
  end.

Section Rendering.
Variable engine : Engine.

(** [v.toFixed(n)] for a property value [v]. *)
Definition call_toFixed (v : JsValue) (n : nat) : Settled string :=
  match v with
  | Some (JNum x) => inr (JsNumber.toFixed x n)
  | Some JNull => inl {| message := fault_message engine (ReadOfNull "toFixed") |}
  | Some _ => inl {| message := fault_message engine (NotAFunction "toFixed") |}
  | None => inl {| message := fault_message engine (ReadOfUndefined "toFixed") |}
  end.

(** The [TypeError] of a conversion to a primitive that fails. *)
Definition primitive_of (converted : option string) : Settled string :=
  match converted with
  | Some t => inr t
  | None => inl {| message := fault_message engine NotPrimitive |}
  end.

(** ToNumber, as [result.confidence * 100] applies it.  An array or an
    object is first converted to a primitive, which is its ToString (the
    inherited [valueOf] returns the object itself) and can throw. *)
Definition ToNumber (v : JsValue) : Settled Number :=
  match v with
  | None => inr JsNumber.NaN
  | Some JNull => inr (JsNumber.of_Z 0)
  | Some (JBool b) => inr (JsNumber.of_Z (if b then 1 else 0))
  | Some (JNum x) => inr x
  | Some (JStr t) => inr (StringToNumber engine t)
  | Some j =>
      match primitive_of (ToString j) with
      | inl err => inl err
      | inr t => inr (StringToNumber engine t)
      end
  end.

(** A value inside a template literal. *)
Definition value_ToString (v : JsValue) : Settled string :=
  match v with
  | Some j => primitive_of (ToString j)
  | None => inr "undefined"
  end.

(** The result panel for a truthy [result], its expressions in the order
    of the JSX. *)
Definition render_panel (r : JSON) : Settled ResultPanel :=
  match read_property engine r "lat", read_property engine r "lon",
        read_property engine r "confidence" with
  | inr lat, inr lon, inr confidence =>
      match call_toFixed lat 5 with
      | inl err => inl err
      | inr lat5 =>
          match call_toFixed lon 5 with
          | inl err => inl err
          | inr lon5 =>
              match ToNumber confidence with
              | inl err => inl err
              | inr c =>
                  let percent := JsNumber.mul c (JsNumber.of_Z 100) in
                  match value_ToString lat, value_ToString lon with
                  | inr lat_text, inr lon_text =>
                      inr {| latitude_text := lat5;
                             longitude_text := lon5;
                             confidence_bar_width := JsNumber.toString percent ++ "%";
                             confidence_text := JsNumber.toFixed percent 1 ++ "%";
                             maps_href :=
                               "https://www.google.com/maps/search/?api=1&query="
                                 ++ lat_text ++ "," ++ lon_text |}
                  | inl err, _ | _, inl err => inl err
                  end
              end
          end
      end
  | inl err, _, _ | _, inl err, _ | _, _, inl err => inl err
  end.

Definition render_result (r : JSON) : Settled ResultSection :=
  if truthy r then
    match render_panel r with
    | inl err => inl err
    | inr p => inr (Panel p)
    end
  else
    match r with
    | JNum x => inr (FalsyText (JsNumber.toString x))
    | _ => inr NoPanel
    end.

(** The returned JSX, or the error thrown while building it. *)
Definition render (s : State) : Settled View :=
  match render_result (result s) with
  | inl err => inl err
  | inr section =>
      inr {| preview_src := nonempty (previewUrl s);
             locate_disabled := submit_disabled s;
             locate_label := if loading s then "Processing..." else "Locate Image";
             error_banner := nonempty (error s);
             result_section := section |}
  end.

End Rendering.

(** *** The page in its environment

    The component together with the requests it has handed to [fetch] and
    that have not settled yet. *)
Record World : Type := {
  ui : State;
  inflight : list FormData
}.

Definition start : World := {| ui := initial; inflight := [] |}.

(** What can happen to the page.  [url] is the object URL the browser
    would hand out at that moment. *)
Inductive Event : Type :=
| FileChange (files : option (list File)) (url : string)
| GlobalPaste (clipboardFiles : option (list File)) (url : string)
| PasteClick (clipboard : Settled (list ClipboardItem)) (url : string)
| LocateClick
| FetchSettles (i : nat) (fetched : FetchOutcome).

(** The file an event hands to [handleFileSelection], if it does. *)
Definition selection_of (ev : Event) : option (File * string) :=
  match ev with
  | FileChange (Some (file :: _)) url => Some (file, url)
  | GlobalPaste (Some (file :: _)) url =>
      if is_image_type (file_type file) then Some (file, url) else None
  | PasteClick clipboard url =>
      match onPasteClick_try clipboard with
      | inr (Some file) => Some (file, url)
      | _ => None
      end
  | _ => None
  end.

(** A paste-button click that ends in [setError] alone. *)
Definition failed_paste (ev : Event) : bool :=
  match ev with
  | PasteClick clipboard _ =>
      match onPasteClick_try clipboard with
      | inr (Some _) => false
      | _ => true
      end
  | _ => false
  end.

(** *** The request state of the specification, read off the cells *)
Definition is_null (v : JSON) : bool :=
  match v with
  | JNull => true
  | _ => false
  end.

Definition showing_loading (s : State) : bool := loading s.
Definition showing_success (s : State) : bool := negb (is_null (result s)).
Definition showing_error (s : State) : bool :=
  match error s with
  | Some _ => true
  | None => false
  end.
Definition showing_idle (s : State) : bool :=
  negb (showing_loading s) && negb (showing_success s) && negb (showing_error s).

(** How many of Idle, Loading, Success, Error hold. *)
Definition request_states_holding (s : State) : nat :=
  (Nat.b2n (showing_idle s) + Nat.b2n (showing_loading s)
   + Nat.b2n (showing_success s) + Nat.b2n (showing_error s))%nat.

Section Stepping.
Variable engine : Engine.

(** A click on the action button: a disabled button dispatches no click
    event, an enabled one runs [handleLocate] up to its [fetch]. *)
Definition click_locate (w : World) : World :=
  if submit_disabled (ui w) then w
  else
    let '(s, request) := handleLocate_start (ui w) in
    {| ui := s; inflight := (inflight w ++ option_list request)%list |}.

Definition settle (i : nat) (fetched : FetchOutcome) (w : World) : World :=
  match inflight w !! i with
  | None => w
  | Some _ =>
      {| ui := handleLocate_settle engine fetched (ui w);
         inflight := delete i (inflight w) |}
  end.

Definition step (w : World) (ev : Event) : World :=
  match ev with
  | FileChange files url =>
      {| ui := onFileChange files url (ui w); inflight := inflight w |}
  | GlobalPaste files url =>
      {| ui := handleGlobalPaste files url (ui w); inflight := inflight w |}
  | PasteClick clipboard url =>
      {| ui := onPasteClick clipboard url (ui w); inflight := inflight w |}
  | LocateClick => click_locate w
  | FetchSettles i fetched => settle i fetched w
  end.

Definition run (w : World) (evs : list Event) : World := fold_left step evs w.

Inductive reachable : World -> Prop :=
| reachable_start : reachable start
| reachable_step w ev : reachable w -> reachable (step w ev).

End Stepping.

End Client.

(** ** The upload proxy: the route handler [POST] *)
Module Proxy.

(** The incoming request, as far as the handler looks at it: what
    [request.formData()] settles to. *)
Record NextRequest : Type := { formData : Settled FormData }.

(** A response built by [NextResponse.json(body, { status })]. *)
Record NextResponse : Type := {
  response_status : Z;
  response_body : JSON
}.

(** An outbound [fetch(url, { method, body })]. *)
Record Call : Type := {
  call_url : string;
  call_method : string;
  call_body : FormData
}.

Inductive Effect : Type :=
| Fetch (c : Call)
| ConsoleError (label : string) (err : JsError).

(** The network behind the proxy: what each outbound call settles to. *)
Definition Backend : Type := Call -> FetchOutcome.

(** [process.env]. *)
Abbreviation Env := (gmap string string).

(** An asynchronous computation of the handler: given the network, the
    effects it performs in order and what it settles to. *)
Definition Task (A : Type) : Type := Backend -> list Effect * Settled A.

Definition ret {A} (a : A) : Task A := fun _ => ([], inr a).
Definition throw {A} (err : JsError) : Task A := fun _ => ([], inl err).
Definition await {A} (settled : Settled A) : Task A := fun _ => ([], settled).

Definition bind {A B} (t : Task A) (k : A -> Task B) : Task B :=
  fun net =>
    match t net with
    | (effects, inl err) => (effects, inl err)
    | (effects, inr a) =>
        let '(effects', b) := k a net in ((effects ++ effects')%list, b)
    end.

Definition fetch (url method : string) (body : FormData) : Task Response :=
  fun net =>
    let c := {| call_url := url; call_method := method; call_body := body |} in
    ([Fetch c], net c).

(** [try { body } catch (error) { handler }], for a handler that returns. *)
Definition try_catch {A} (body : Task A) (handler : JsError -> list Effect * A)
    : Backend -> list Effect * A :=
  fun net =>
    match body net with
    | (effects, inr a) => (effects, a)
    | (effects, inl err) =>
        let '(effects', a) := handler err in ((effects ++ effects')%list, a)
    end.

Notation "'let*' x ':=' t 'in' k" := (bind t (fun x => k))
  (at level 10, x name, t at level 100, k at level 200).

(** [!file] for what [formData.get('file')] returned. *)
Definition falsy_entry (v : option FormDataEntryValue) : bool :=
  match v with
  | None => true
  | Some (EntryString t) => String.eqb t ""
  | Some (EntryFile _) => false
  end.

(** The text a template literal gives for [process.env.X]. *)
Definition template_of (v : option string) : string :=
  match v with
  | Some t => t
  | None => "undefined"
  end.

Definition error_body (msg : string) : JSON := JObj [("error", JStr msg)].

Section WithEngine.
Variable engine : Engine.

(** The statuses the [Response] constructor refuses: outside 200..599 a
    [RangeError], a null-body status with a body a [TypeError]. *)
Definition NextResponse_json (body : JSON) (init_status : Z) : Task NextResponse :=
  if negb ((200 <=? init_status) && (init_status <=? 599)) then
    throw {| message := fault_message engine (StatusOutOfRange init_status) |}
  else if (init_status =? 204) || (init_status =? 205) || (init_status =? 304) then
    throw {| message := fault_message engine (NullBodyStatus init_status) |}
  else ret {| response_status := init_status; response_body := body |}.

(** The [try] block of [POST]. *)
Definition POST_try (env : Env) (request : NextRequest) : Task NextResponse :=
  let* formData := await (formData request) in
  let file := FormData_get "file" formData in
  if falsy_entry file then
    NextResponse_json (error_body "No file uploaded") 400
  else
    let apiFormData :=
      match file with
      | Some v => FormData_append "file" v []
      | None => []
      end in
    let geoApiUrl := env !! "GEO_API" in
    let* response := fetch (template_of geoApiUrl ++ "/geolocate") "POST" apiFormData in
    if negb (ok response) then
      let* errorText := await (text response) in
      NextResponse_json (error_body ("GeoAPI error: " ++ errorText)) (status response)
    else
      let* data := await (json response) in
      NextResponse_json data 200.

(** The [catch] block of [POST]. *)
Definition POST_catch (error : JsError) : list Effect * NextResponse :=
  ([ConsoleError "Proxy Error:" error],
   {| response_status := 500;
      response_body := JObj [("error", JStr "Internal Server Error");
                             ("details", JStr (message error))] |}).

Definition POST (env : Env) (request : NextRequest)
    : Backend -> list Effect * NextResponse :=
  try_catch (POST_try env request) POST_catch.



End WithEngine.


(** The URL [POST] computes from the environment it finds. *)
Definition geolocate_url (env : Env) : string :=
  template_of (env !! "GEO_API") ++ "/geolocate".



End Proxy.

(** ** The client behind the proxy *)
Module EndToEnd.

(** What a JSON value is after [JSON.stringify] on one side and a parse
    on the other: a number that is not finite arrives as [null], [-0] as
    [0]. *)
Fixpoint on_the_wire (v : JSON) : JSON :=
  match v with
  | JNum (S754_nan) | JNum (S754_infinity _) => JNull
  | JNum (S754_zero _) => JNum (S754_zero false)
  | JArr items => JArr (List.map on_the_wire items)
  | JObj props => JObj (List.map (fun kv => (fst kv, on_the_wire (snd kv))) props)
  | _ => v
  end.

Section WithEngine.
Variable engine : Engine.

(** The [Response] the browser gets for a [NextResponse]. *)
Definition delivered (r : Proxy.NextResponse) : Response :=
  {| status := Proxy.response_status r;
     text := inr (JSON_stringify engine (Proxy.response_body r));
     json := inr (on_the_wire (Proxy.response_body r)) |}.

(** [fetch('/api/v1/geolocate', { method: 'POST', body })] answered by
    the route handler, itself in front of the network [net]. *)
Definition via_proxy (env : Proxy.Env) (net : Proxy.Backend) (body : FormData)
    : FetchOutcome :=
  inr (delivered (snd (Proxy.POST engine env {| Proxy.formData := inr body |} net))).

End WithEngine.

End EndToEnd.

(** ** Concrete data used in the examples *)
Module Sample.

(** An engine with V8's wording; the two conversions are not exercised by
    the examples and are left trivial. *)
Definition engine : Engine :=
  {| fault_message := fun f =>
       match f with
       | ReadOfNull p => "Cannot read properties of null (reading '" ++ p ++ "')"
       | ReadOfUndefined p => "Cannot read properties of undefined (reading '" ++ p ++ "')"
       | NotAFunction p => p ++ " is not a function"
       | NotPrimitive => "Cannot convert object to primitive value"
       | StatusOutOfRange _ => "init[status] must be in the range of 200 to 599, inclusive."
       | NullBodyStatus _ => "Response with null body status cannot have body"
       end;
     StringToNumber := fun _ => JsNumber.NaN;
     JSON_stringify := fun _ => "" |}.

Definition photo : File :=
  {| file_name := "street.png"; file_type := "image/png"; file_content := "PNG" |}.
Definition other_photo : File :=
  {| file_name := "beach.jpg"; file_type := "image/jpeg"; file_content := "JPG" |}.

(** The text [{"error":"model unavailable"}]. *)
Definition model_unavailable_text : string :=
  "{" ++ dquote ++ "error" ++ dquote ++ ":" ++ dquote ++ "model unavailable" ++ dquote ++ "}".
Definition model_unavailable_json : JSON := JObj [("error", JStr "model unavailable")].

(** HTTP 500 with that body. *)
Definition model_unavailable : Response :=
  {| status := 500; text := inr model_unavailable_text; json := inr model_unavailable_json |}.

(** [{lat: 48.8566, lon: 2.3522, confidence: 0.87}]. *)
Definition paris : JSON :=
  JObj [("lat", JNum (JsNumber.decimal 488566 4));
        ("lon", JNum (JsNumber.decimal 23522 4));
        ("confidence", JNum (JsNumber.decimal 87 2))].

Definition paris_text : string :=
  "{" ++ dquote ++ "lat" ++ dquote ++ ":48.8566," ++ dquote ++ "lon" ++ dquote
    ++ ":2.3522," ++ dquote ++ "confidence" ++ dquote ++ ":0.87}".

Definition paris_reply : Response :=
  {| status := 200; text := inr paris_text; json := inr paris |}.

Definition env : Proxy.Env := {[ "GEO_API" := "http://geo.internal:8000" ]}.

(** A backend that answers every call the same way. *)
Definition always (answer : FetchOutcome) : Proxy.Backend := fun _ => answer.

(** HTTP 400 from the backend. *)
Definition bad_image : Response :=
  {| status := 400; text := inr "not an image";
     json := inl {| message := "Unexpected token" |} |}.

(** HTTP 200 with the body [{}]. *)
Definition empty_object_reply : Response :=
  {| status := 200; text := inr "{}"; json := inr (JObj []) |}.

Definition unreachable : FetchOutcome := inl {| message := "fetch failed" |}.

Definition upload (f : File) : Proxy.NextRequest :=
  {| Proxy.formData := inr [("file", EntryFile f)] |}.

(** The page with [photo] selected and submitted. *)
Definition submitted : Client.World :=
  Client.run engine Client.start
    [Client.FileChange (Some [photo]) "blob:1"; Client.LocateClick].

End Sample.

(** ** Invariants of the page *)

Import Client.

(** While the spinner shows, exactly the one request built from the
    selected file is in flight and no result is stored; otherwise nothing
    is in flight. *)
Definition coherent (w : World) : Prop :=
  if loading (ui w)
  then (exists file, inflight w = [[("file", EntryFile file)]]) /\ result (ui w) = JNull
  else inflight w = [].

(** At most one of spinner, stored result and stored error. *)
Definition apart (s : State) : Prop :=
  if loading s
  then result s = JNull /\ error s = None
  else result s = JNull \/ error s = None.

(** Events after which at most one of spinner, result and error is left: a
    selection, an accepted click on the action button, and the failure of
    the request in flight. *)
Definition clears_the_slate (engine : Engine) (w : World) (ev : Event) : Prop :=
  selection_of ev <> None \/
  (ev = LocateClick /\ submit_disabled (ui w) = false) \/
  (exists i fetched err,
     ev = FetchSettles i fetched /\ inflight w !! i <> None /\
     handleLocate_try engine fetched = inl err).

(** The Error state with [msg] on screen: an error, no result, no spinner. *)
Definition in_error_state (s : State) (msg : string) : Prop :=
  error s = Some msg /\ result s = JNull /\ loading s = false /\ msg <> "".

(** Substring test, for the map link. *)
Fixpoint contains (needle hay : string) : bool :=
  String.prefix needle hay ||
  match hay with
  | EmptyString => false
  | String _ rest => contains needle rest
  end.

(** The page renders a result panel with these three texts and a map link
    that contains [coords]. *)
Definition displays (engine : Engine) (s : State) (lat lon conf coords : string) : Prop :=
  exists view panel,
    render engine s = inr view /\ result_section view = Panel panel /\
    latitude_text panel = lat /\ longitude_text panel = lon /\
    confidence_text panel = conf /\ contains coords (maps_href panel) = true.

(** Nothing is stored, shown busy or previewed while no file is selected;
    a preview belongs to a selected file; a stored error has a text. *)
Definition tidy (s : State) : Prop :=
  (imageFile s = None -> previewUrl s = None /\ loading s = false /\ result s = JNull) /\
  (previewUrl s = None -> imageFile s = None) /\
  error s <> Some "".

(** A clipboard item that offers an image type. *)
Definition has_image (item : ClipboardItem) : bool := existsb is_image_type (types item).

(** The two ways in from the clipboard: Ctrl+V and the Paste button. *)
Definition from_clipboard (ev : Event) : bool :=
  match ev with
  | GlobalPaste _ _ | PasteClick _ _ => true
  | _ => false
  end.

(** A form entry under another name than [file]. *)
Definition other_field (entry : string * FormDataEntryValue) : bool :=
  negb (String.eqb (fst entry) "file").

(** A non-ok status that a [Response] with a body can carry. *)
Definition relayable (code : Z) : bool :=
  (300 <=? code) && (code <=? 599) && negb (code =? 304).

(** The two fixed answers of the proxy. *)
Definition no_file_uploaded : Proxy.NextResponse :=
  {| Proxy.response_status := 400;
     Proxy.response_body := Proxy.error_body "No file uploaded" |}.

Definition internal_server_error (details : string) : Proxy.NextResponse :=
  {| Proxy.response_status := 500;
     Proxy.response_body := JObj [("error", JStr "Internal Server Error");
                                  ("details", JStr details)] |}.

(** The call [POST] makes for a [file] entry [v]. *)
Definition backend_call (env : Proxy.Env) (v : FormDataEntryValue) : Proxy.Call :=
  {| Proxy.call_url := Proxy.geolocate_url env;
     Proxy.call_method := "POST";
     Proxy.call_body := [("file", v)] |}.

Section ClientFacts.
Variable engine : Engine.

Lemma handleFileSelection_cells file url s :
  handleFileSelection file url s =
  {| imageFile := Some file; previewUrl := Some url; loading := loading s;
     result := JNull; error := None |}.
Proof. reflexivity. Qed.

Lemma step_selection w ev file url :
  selection_of ev = Some (file, url) ->
  step engine w ev = {| ui := handleFileSelection file url (ui w); inflight := inflight w |}.
Proof.
  destruct ev as [files u|files u|clipboard u| |i fetched]; simpl; try discriminate.
  - destruct files as [[|f fs]|]; try discriminate. intros [= -> ->]. reflexivity.
  - destruct files as [[|f fs]|]; try discriminate.
    destruct (is_image_type (file_type f)) eqn:Himg; try discriminate.
    intros [= -> ->]. simpl. rewrite Himg. reflexivity.
  - unfold onPasteClick. destruct (onPasteClick_try clipboard) as [err|[f|]]; try discriminate.
    intros [= -> ->]. reflexivity.
Qed.

(** An event other than a click on the action button or a settling fetch
    leaves the spinner and the requests alone; it either selects a file,
    or only sets the error (a failed paste), or does nothing. *)
Lemma step_passive w ev :
  ev <> LocateClick -> (forall i fetched, ev <> FetchSettles i fetched) ->
  inflight (step engine w ev) = inflight w /\
  loading (ui (step engine w ev)) = loading (ui w) /\
  ((result (ui (step engine w ev)) = JNull /\ error (ui (step engine w ev)) = None)
   \/ (failed_paste ev = true /\ result (ui (step engine w ev)) = result (ui w)
       /\ exists msg, error (ui (step engine w ev)) = Some msg)
   \/ step engine w ev = w).
Proof.
  intros Hclick Hsettle.
  destruct ev as [files u|files u|clipboard u| |i fetched]; simpl.
  - destruct files as [[|f fs]|]; simpl; try (destruct w; auto).
  - destruct files as [[|f fs]|]; simpl; try (destruct w; auto).
    destruct (is_image_type (file_type f)); simpl; auto.
  - unfold onPasteClick. destruct (onPasteClick_try clipboard) as [err|[f|]]; simpl; eauto 8.
  - congruence.
  - exfalso. eapply Hsettle. reflexivity.
Qed.

Lemma click_while_loading w :
  loading (ui w) = true -> step engine w LocateClick = w.
Proof.
  intros Hl. simpl. unfold click_locate, submit_disabled. rewrite Hl.
  destruct (imageFile (ui w)); reflexivity.
Qed.

Lemma step_coherent w ev : coherent w -> coherent (step engine w ev).
Proof.
  intros Hc.
  destruct ev as [files u|files u|clipboard u| |i fetched].
  1-3: match goal with |- coherent (step _ _ ?e) =>
         destruct (step_passive w e) as (Hin & Hl & Hr); [congruence|congruence|];
         unfold coherent in *; rewrite Hin, Hl;
         destruct (loading (ui w)); [|exact Hc];
         destruct Hc as [Hreq Hres]; split; [exact Hreq|];
         destruct Hr as [[Hr _]|[(_ & Hr & _)|Hr]]; congruence
       end.
  - unfold coherent in *. simpl. unfold click_locate, submit_disabled, handleLocate_start.
    destruct (imageFile (ui w)) as [file|] eqn:Hfile; simpl.
    + destruct (loading (ui w)) eqn:Hl; simpl.
      * rewrite Hl. exact Hc.
      * rewrite Hc. simpl. split; [exists file|]; reflexivity.
    + exact Hc.
  - unfold coherent in *. simpl. unfold settle.
    destruct (inflight w !! i) as [body|] eqn:Hi; [|exact Hc].
    simpl. destruct (loading (ui w)).
    + destruct Hc as [[file Hreq] _]. rewrite Hreq in *.
      destruct i as [|i]; [reflexivity|]. destruct i; discriminate.
    + rewrite Hc in Hi. discriminate.
Qed.

Lemma reachable_coherent w : reachable engine w -> coherent w.
Proof.
  induction 1 as [|w ev _ IH]; [reflexivity|]. now apply step_coherent.
Qed.

Lemma reachable_run w evs : reachable engine w -> reachable engine (run engine w evs).
Proof.
  revert w. induction evs as [|ev evs IH]; intros w Hw; simpl; [exact Hw|].
  apply IH. now constructor.
Qed.

(** In a reachable world a request in flight is the only one, was built
    from a file, and the spinner shows over an empty result. *)
Lemma inflight_inv w i body :
  reachable engine w -> inflight w !! i = Some body ->
  i = 0%nat /\ (exists file, body = [("file", EntryFile file)]) /\
  inflight w = [body] /\ loading (ui w) = true /\ result (ui w) = JNull.
Proof.
  intros Hr Hi. apply reachable_coherent in Hr. unfold coherent in Hr.
  destruct (loading (ui w)).
  - destruct Hr as [[file Hreq] Hres]. rewrite Hreq in Hi.
    destruct i as [|[|i]]; try discriminate. injection Hi as <-.
    rewrite Hreq. eauto 8.
  - rewrite Hr in Hi. discriminate.
Qed.

Lemma reachable_iff_run w : reachable engine w <-> exists evs, w = run engine start evs.
Proof.
  split.
  - induction 1 as [|w ev _ [evs ->]]; [now exists []|].
    exists (evs ++ [ev])%list. unfold run. now rewrite fold_left_app.
  - intros [evs ->]. apply reachable_run. constructor.
Qed.

End ClientFacts.

(** ** Number formatting on known values *)

Example decimal_48_8566 :
  JsNumber.decimal 488566 4 = S754_finite false 6875955173580918 (-47).
Proof. vm_compute. reflexivity. Qed.

Example decimal_2_3522 :
  JsNumber.decimal 23522 4 = S754_finite false 5296683521750440 (-51).
Proof. vm_compute. reflexivity. Qed.

Example percent_of_0_87 :
  JsNumber.mul (JsNumber.decimal 87 2) (JsNumber.of_Z 100) = JsNumber.of_Z 87.
Proof. vm_compute. reflexivity. Qed.

Example toString_known_values :
  JsNumber.toString (JsNumber.decimal 1 1) = "0.1" /\
  JsNumber.toString (JsNumber.decimal 1 7) = "1e-7" /\
  JsNumber.toString (JsNumber.decimal 123456 9) = "0.000123456" /\
  JsNumber.toString (JsNumber.of_Z (10 ^ 21)) = "1e+21" /\
  JsNumber.toString (JsNumber.of_Z (10 ^ 20)) = "100000000000000000000" /\
  JsNumber.toString (JsNumber.of_Z (-87)) = "-87" /\
  JsNumber.toString (JsNumber.mul (JsNumber.decimal 57 2) (JsNumber.of_Z 100))
    = "56.99999999999999".
Proof. vm_compute. repeat split. Qed.

Example toFixed_known_values :
  JsNumber.toFixed (JsNumber.decimal 1005 3) 2 = "1.00" /\
  JsNumber.toFixed (JsNumber.decimal 25 1) 0 = "3" /\
  JsNumber.toFixed (JsNumber.decimal (-15) 1) 0 = "-2" /\
  JsNumber.toFixed (JsNumber.decimal 1 6) 7 = "0.0000010" /\
  JsNumber.toFixed (JsNumber.of_Z 0) 5 = "0.00000" /\
  JsNumber.toFixed (JsNumber.of_Z (10 ^ 21)) 2 = "1e+21" /\
  JsNumber.toFixed JsNumber.NaN 1 = "NaN".
Proof. vm_compute. repeat split. Qed.

(** ** Conversions to a string on known values *)

Example ToString_known_values :
  ToString (JArr [JNum (JsNumber.of_Z 1); JNull; JStr "a"; JArr [JBool true; JArr []]])
  = Some "1,,a,true," /\
  ToString (JObj [("valueOf", JStr "x")]) = Some "[object Object]" /\
  ToString (JObj [("message", JStr "x"); ("toString", JNull)]) = None /\
  ToString (JArr [JStr "a"; JObj [("toString", JStr "x")]]) = None.
Proof. vm_compute. repeat split. Qed.

(** ** Submitting while a request is in flight *)

(** C3.  In every reachable state of the page at most one submission is in
    flight, and a click on the action button while one is in flight, or
    while the spinner shows, leaves the page and the set of requests as
    they are: no second network call, no state change. *)
Theorem submit_rejected_while_in_flight (engine : Engine) (w : World) :
  reachable engine w ->
  (length (inflight w) <= 1)%nat /\
  (inflight w <> [] -> step engine w LocateClick = w) /\
  (loading (ui w) = true -> step engine w LocateClick = w).
Proof.
  intros Hr. pose proof (reachable_coherent engine w Hr) as Hc.
  unfold coherent in Hc. destruct (loading (ui w)) eqn:Hl.
  - destruct Hc as [[file Hreq] _]. rewrite Hreq.
    split; [simpl; lia|]. split; intros _; now apply click_while_loading.
  - rewrite Hc. split; [simpl; lia|]. split; [congruence|discriminate].
Qed.

Lemma submit_rejected_while_in_flight_witness :
  let w := run Sample.engine start
             [FileChange (Some [Sample.photo]) "blob:1"; LocateClick] in
  inflight w = [[("file", EntryFile Sample.photo)]] /\
  step Sample.engine w LocateClick = w.
Proof.
  intros w. split; [reflexivity|].
  apply (submit_rejected_while_in_flight Sample.engine w).
  - apply reachable_run. constructor.
  - reflexivity.
Defined.

(** ** One request state at a time *)

Section Exclusion.
Variable engine : Engine.

Lemma step_apart w ev :
  coherent w -> apart (ui w) -> failed_paste ev = false -> apart (ui (step engine w ev)).
Proof.
  intros Hc Ha Hq.
  destruct ev as [files u|files u|clipboard u| |i fetched].
  1-3: match goal with |- apart (ui (step _ _ ?e)) =>
         destruct (step_passive engine w e) as (_ & Hl & Hr); [congruence|congruence|];
         destruct Hr as [[Hres Herr]|[(Hf & _)|Hsame]];
         [ unfold apart; rewrite Hl, Hres, Herr; destruct (loading (ui w)); auto
         | congruence
         | rewrite Hsame; exact Ha ]
       end.
  - simpl. unfold click_locate, submit_disabled, handleLocate_start.
    destruct (imageFile (ui w)) as [file|]; simpl; [|exact Ha].
    destruct (loading (ui w)) eqn:Hl; simpl; [exact Ha|].
    unfold apart. simpl. auto.
  - simpl. unfold settle. destruct (inflight w !! i) as [body|] eqn:Hi; [|exact Ha].
    unfold coherent in Hc. unfold apart in *. destruct (loading (ui w)).
    + destruct Ha as [Hres Herr]. simpl. unfold handleLocate_settle.
      destruct (handleLocate_try engine fetched); simpl; auto.
    + rewrite Hc in Hi. discriminate.
Qed.

Lemma run_apart evs w :
  coherent w -> apart (ui w) ->
  forallb (fun ev => negb (failed_paste ev)) evs = true ->
  apart (ui (run engine w evs)).
Proof.
  revert w. induction evs as [|ev evs IH]; intros w Hc Ha Hq; simpl in *; [exact Ha|].
  apply andb_prop in Hq as [Hev Hq]. apply negb_true_iff in Hev.
  apply IH; [now apply step_coherent|now apply step_apart|exact Hq].
Qed.

Lemma apart_one_state s :
  apart s ->
  request_states_holding s = 1%nat /\ showing_error s && showing_success s = false.
Proof.
  unfold apart, request_states_holding, showing_idle, showing_loading,
    showing_success, showing_error.
  destruct (loading s).
  - intros [-> ->]. split; reflexivity.
  - intros [-> | ->].
    + destruct (error s); split; reflexivity.
    + destruct (result s); split; reflexivity.
Qed.

Lemma slate_apart w ev :
  coherent w -> clears_the_slate engine w ev -> apart (ui (step engine w ev)).
Proof.
  intros Hc [Hsel|[[-> Hen]|(i & fetched & err & -> & Hi & Ht)]].
  - destruct (selection_of ev) as [[file url]|] eqn:Hs; [|congruence].
    rewrite (step_selection engine w ev file url Hs). unfold apart. simpl.
    destruct (loading (ui w)); auto.
  - simpl. unfold click_locate. rewrite Hen. unfold handleLocate_start.
    unfold submit_disabled in Hen.
    destruct (imageFile (ui w)); [unfold apart; simpl; auto|discriminate].
  - simpl. unfold settle. destruct (inflight w !! i) as [body|] eqn:Hin; [|congruence].
    unfold coherent in Hc. destruct (loading (ui w)).
    + destruct Hc as [_ Hres]. unfold handleLocate_settle. rewrite Ht.
      unfold apart. simpl. auto.
    + rewrite Hc in Hin. discriminate.
Qed.

Lemma failed_paste_sets_error w ev :
  failed_paste ev = true ->
  inflight (step engine w ev) = inflight w /\
  exists msg, ui (step engine w ev) = setError (Some msg) (ui w).
Proof.
  destruct ev as [files u|files u|clipboard u| |i fetched]; simpl; try discriminate.
  unfold onPasteClick. destruct (onPasteClick_try clipboard) as [err|[f|]];
    try discriminate; eauto.
Qed.

End Exclusion.

(** C4 (counterexample).  Select a file, submit, receive a result, then
    click Paste with clipboard access denied: the result panel and the
    error banner are both on screen, so Success and Error hold together. *)
Lemma error_beside_result :
  let w := run Sample.engine start
             [FileChange (Some [Sample.photo]) "blob:1";
              LocateClick;
              FetchSettles 0 (inr Sample.paris_reply);
              PasteClick (inl {| message := "NotAllowedError" |}) "blob:2"] in
  result (ui w) = Sample.paris /\
  error (ui w) = Some "Clipboard access denied. Try Ctrl+V." /\
  request_states_holding (ui w) = 2%nat.
Proof. repeat split. Qed.

(** C4 (amended).  In every state reached from the initial page the
    spinner and a stored result never hold together.  A paste-button click
    that fails sets the error and leaves every other cell and the requests
    as they are, so an error can stand beside a result or the spinner; on a
    page that shows neither, it leaves the Error state alone.  Exactly one
    of Idle, Loading, Success and Error holds, and no error is shown beside a
    result, whenever no paste-button click failed on the way, and again
    whenever none failed since the last selection, the last accepted click on
    the action button or the last failure of a request. *)
Theorem one_request_state (engine : Engine) (evs : list Event) :
  let s := ui (run engine start evs) in
  showing_loading s && showing_success s = false /\
  (forallb (fun ev => negb (failed_paste ev)) evs = true ->
   request_states_holding s = 1%nat /\ showing_error s && showing_success s = false) /\
  (forall before reset after,
     evs = (before ++ reset :: after)%list ->
     clears_the_slate engine (run engine start before) reset ->
     forallb (fun ev => negb (failed_paste ev)) after = true ->
     request_states_holding s = 1%nat /\ showing_error s && showing_success s = false) /\
  (forall ev,
     failed_paste ev = true ->
     let w2 := step engine (run engine start evs) ev in
     inflight w2 = inflight (run engine start evs) /\
     (exists msg, ui w2 = setError (Some msg) s) /\
     (showing_loading s = false -> showing_success s = false ->
      request_states_holding (ui w2) = 1%nat)).
Proof.
  intros s.
  assert (Hreach : forall l, coherent (run engine start l)).
  { intros l. apply reachable_coherent with (engine := engine), reachable_run.
    constructor. }
  split; [|split; [|split]].
  - pose proof (Hreach evs) as Hc.
    unfold coherent in Hc. subst s. unfold showing_loading, showing_success.
    destruct (loading (ui (run engine start evs))); [|reflexivity].
    destruct Hc as [_ ->]. reflexivity.
  - intros Hq. apply apart_one_state. subst s.
    apply run_apart; [reflexivity| |exact Hq]. unfold apart. simpl. auto.
  - intros before reset after Hevs Hreset Hq. apply apart_one_state. subst s.
    rewrite Hevs.
    replace (run engine start (before ++ reset :: after))
      with (run engine (step engine (run engine start before) reset) after)
      by (unfold run; rewrite fold_left_app; reflexivity).
    apply run_apart; [|now apply slate_apart|exact Hq].
    apply step_coherent, Hreach.
  - intros ev Hfail w2. subst w2.
    destruct (failed_paste_sets_error engine (run engine start evs) ev Hfail)
      as (Hin & msg & Hui).
    split; [exact Hin|]. split; [exists msg; exact Hui|].
    intros Hl Hs. rewrite Hui. subst s.
    unfold request_states_holding, showing_idle, showing_loading, showing_success,
      showing_error in *. simpl. rewrite Hl, Hs. reflexivity.
Qed.

Lemma one_request_state_witness :
  let evs := [FileChange (Some [Sample.photo]) "blob:1";
              LocateClick;
              PasteClick (inl {| message := "NotAllowedError" |}) "blob:2";
              FetchSettles 0 (inr Sample.paris_reply);
              GlobalPaste (Some [Sample.other_photo]) "blob:3"] in
  request_states_holding (ui (run Sample.engine start evs)) = 1%nat.
Proof.
  intros evs.
  destruct (one_request_state Sample.engine evs) as (_ & _ & Hsince & _).
  apply (Hsince [FileChange (Some [Sample.photo]) "blob:1";
                 LocateClick;
                 PasteClick (inl {| message := "NotAllowedError" |}) "blob:2";
                 FetchSettles 0 (inr Sample.paris_reply)]
           (GlobalPaste (Some [Sample.other_photo]) "blob:3") []).
  - reflexivity.
  - left. discriminate.
  - reflexivity.
Defined.

(** ** The proxy *)

Import Proxy.

Section ProxyFacts.
Variable engine : Engine.

Lemma falsy_entry_spec (file : option FormDataEntryValue) :
  falsy_entry file = true <-> file = None \/ file = Some (EntryString "").
Proof.
  destruct file as [[f|t]|]; simpl.
  - split; [discriminate|intros [|]; discriminate].
  - rewrite String.eqb_eq. split; [intros ->; auto|intros [|[= ->]]; [discriminate|reflexivity]].
  - split; auto.
Qed.

Lemma POST_without_file env fd net :
  falsy_entry (FormData_get "file" fd) = true ->
  POST engine env {| formData := inr fd |} net =
  ([], {| response_status := 400; response_body := error_body "No file uploaded" |}).
Proof.
  intros Hf. unfold POST, try_catch, POST_try, bind, await. simpl. rewrite Hf. reflexivity.
Qed.

(** With a file entry that passes the guard, the handler's first effect is
    the call to the backend, and its answer is never the "No file uploaded"
    response. *)
Lemma POST_with_file env fd net v :
  FormData_get "file" fd = Some v -> falsy_entry (Some v) = false ->
  exists rest response,
    POST engine env {| formData := inr fd |} net =
    (Fetch {| call_url := geolocate_url env; call_method := "POST";
              call_body := [("file", v)] |} :: rest, response) /\
    response <> {| response_status := 400; response_body := error_body "No file uploaded" |}.
Proof.
  intros Hget Hf. unfold POST, try_catch, POST_try, bind, await, fetch. simpl.
  rewrite Hget, Hf. fold (geolocate_url env). simpl.
  destruct (net _) as [err|response]; simpl.
  { eexists _, _. split; [reflexivity|discriminate]. }
  destruct (ok response); simpl.
  - destruct (json response) as [err|data]; simpl.
    + eexists _, _. split; [reflexivity|discriminate].
    + unfold NextResponse_json. simpl. eexists _, _. split; [reflexivity|discriminate].
  - destruct (text response) as [err|errorText]; simpl.
    + eexists _, _. split; [reflexivity|discriminate].
    + unfold NextResponse_json.
      destruct (negb _); simpl; [eexists _, _; split; [reflexivity|discriminate]|].
      destruct (_ || _); simpl; eexists _, _; (split; [reflexivity|]);
        [discriminate|unfold error_body; simpl; intros [= _ Habs]; discriminate Habs].
Qed.

End ProxyFacts.

(** C7 (counterexample).  A request whose [file] field is present and
    holds the empty string is answered 400 "No file uploaded"; and with a
    real file in the field the answer is 400 as well when the backend says
    400. *)
Lemma bad_request_with_file_field :
  let empty_field : FormData := [("file", EntryString "")] in
  FormData_get "file" empty_field = Some (EntryString "") /\
  response_status
    (snd (POST Sample.engine Sample.env {| formData := inr empty_field |}
            (Sample.always (inr Sample.paris_reply)))) = 400 /\
  response_status
    (snd (POST Sample.engine Sample.env (Sample.upload Sample.photo)
            (Sample.always (inr Sample.bad_image)))) = 400.
Proof. repeat split. Qed.

(** C7 (amended).  For a request whose form data parses, [POST] answers
    400 "No file uploaded" if and only if the [file] field is absent or
    holds the empty string, and then performs no effect at all; when the
    field holds a file or a non-empty string, the first thing [POST] does is
    a POST of a fresh form with that one [file] entry to the URL made of
    [process.env.GEO_API] and [/geolocate]. *)
Theorem forward_bad_request (engine : Engine) (env : Env) (fd : FormData)
    (net : Backend) :
  let out := POST engine env {| formData := inr fd |} net in
  let file := FormData_get "file" fd in
  (snd out = {| response_status := 400; response_body := error_body "No file uploaded" |}
   <-> file = None \/ file = Some (EntryString "")) /\
  (file = None \/ file = Some (EntryString "") -> fst out = []) /\
  (forall v, file = Some v -> v <> EntryString "" ->
     exists rest,
       fst out = Fetch {| call_url := template_of (env !! "GEO_API") ++ "/geolocate";
                          call_method := "POST";
                          call_body := [("file", v)] |} :: rest).
Proof.
  intros out file. subst out.
  destruct (falsy_entry file) eqn:Hf.
  - pose proof (proj1 (falsy_entry_spec file) Hf) as Hcase.
    rewrite (POST_without_file engine env fd net Hf). simpl.
    split; [tauto|]. split; [reflexivity|].
    intros v Hv Hne. destruct Hcase as [Hn|Hs]; congruence.
  - assert (Hnot : ~ (file = None \/ file = Some (EntryString ""))).
    { intros Hcase. apply falsy_entry_spec in Hcase. congruence. }
    destruct file as [v|] eqn:Hget; [|tauto].
    destruct (POST_with_file engine env fd net v Hget Hf) as (rest & response & Hout & Hne).
    rewrite Hout. simpl. split; [tauto|]. split; [tauto|].
    intros v' [= <-] _. exists rest. reflexivity.
Qed.

Lemma forward_bad_request_witness :
  exists rest,
    fst (POST Sample.engine Sample.env (Sample.upload Sample.photo)
           (Sample.always (inr Sample.paris_reply)))
    = Fetch {| call_url := "http://geo.internal:8000/geolocate";
               call_method := "POST";
               call_body := [("file", EntryFile Sample.photo)] |} :: rest.
Proof.
  apply (forward_bad_request Sample.engine Sample.env
           [("file", EntryFile Sample.photo)] (Sample.always (inr Sample.paris_reply))).
  - reflexivity.
  - discriminate.
Defined.

(** C10.  A [file] field that holds the empty string gets the answer of an
    absent field, 400 "No file uploaded", without any effect; a field that
    holds a non-empty string, or a file of whatever media type, passes the
    guard and is sent on to the backend as it is. *)
Theorem falsy_file_field (engine : Engine) (env : Env) (fd : FormData) (net : Backend) :
  let out := POST engine env {| formData := inr fd |} net in
  (FormData_get "file" fd = Some (EntryString "") ->
   out = ([], {| response_status := 400; response_body := error_body "No file uploaded" |}) /\
   forall fd', FormData_get "file" fd' = None ->
               POST engine env {| formData := inr fd' |} net = out) /\
  (forall t, FormData_get "file" fd = Some (EntryString t) -> t <> "" ->
     exists rest,
       fst out = Fetch {| call_url := geolocate_url env; call_method := "POST";
                          call_body := [("file", EntryString t)] |} :: rest) /\
  (forall f, FormData_get "file" fd = Some (EntryFile f) ->
     exists rest,
       fst out = Fetch {| call_url := geolocate_url env; call_method := "POST";
                          call_body := [("file", EntryFile f)] |} :: rest).
Proof.
  intros out. subst out. split; [|split].
  - intros Hempty.
    assert (Hout : POST engine env {| formData := inr fd |} net =
                   ([], {| response_status := 400;
                           response_body := error_body "No file uploaded" |}))
      by (apply POST_without_file; rewrite Hempty; reflexivity).
    split; [exact Hout|].
    intros fd' Hnone. rewrite Hout. apply POST_without_file. rewrite Hnone. reflexivity.
  - intros t Hget Hne.
    destruct (POST_with_file engine env fd net (EntryString t) Hget) as (rest & r & Hout & _).
    { simpl. now apply String.eqb_neq. }
    rewrite Hout. eauto.
  - intros f Hget.
    destruct (POST_with_file engine env fd net (EntryFile f) Hget) as (rest & r & Hout & _);
      [reflexivity|].
    rewrite Hout. eauto.
Qed.

Lemma falsy_file_field_witness :
  POST Sample.engine Sample.env {| formData := inr [("file", EntryString "")] |}
    (Sample.always (inr Sample.paris_reply))
  = ([], {| response_status := 400; response_body := error_body "No file uploaded" |})
  /\
  exists rest,
    fst (POST Sample.engine Sample.env
           {| formData := inr [("caption", EntryString "x"); ("file", EntryString "hello")] |}
           (Sample.always (inr Sample.paris_reply)))
    = Fetch {| call_url := geolocate_url Sample.env; call_method := "POST";
               call_body := [("file", EntryString "hello")] |} :: rest.
Proof.
  split.
  - destruct (falsy_file_field Sample.engine Sample.env [("file", EntryString "")]
                (Sample.always (inr Sample.paris_reply))) as (Hempty & _).
    exact (proj1 (Hempty eq_refl)).
  - destruct (falsy_file_field Sample.engine Sample.env
                [("caption", EntryString "x"); ("file", EntryString "hello")]
                (Sample.always (inr Sample.paris_reply))) as (_ & Htext & _).
    apply (Htext "hello"); [reflexivity|discriminate].
Defined.

(** ** Where the proxy sends a request *)







(** ** How a settled request changes the page *)

Section SettleFacts.
Variable engine : Engine.

Lemma catch_message_nonempty (err : JsError) : catch_message err <> "".
Proof.
  unfold catch_message. destruct (String.eqb (message err) "") eqn:He; [discriminate|].
  now apply String.eqb_neq.
Qed.

(** The request in flight settles: [handleLocate] resumes on the page as
    it is then, and nothing remains in flight. *)
Lemma settle_inflight (w : World) (i : nat) (body : FormData) (fetched : FetchOutcome) :
  reachable engine w -> inflight w !! i = Some body ->
  step engine w (FetchSettles i fetched) =
  {| ui := handleLocate_settle engine fetched (ui w); inflight := [] |}.
Proof.
  intros Hr Hi. destruct (inflight_inv engine w i body Hr Hi) as (-> & _ & Hreq & _).
  simpl. unfold settle. rewrite Hi, Hreq. reflexivity.
Qed.

Lemma settle_rejected (fetched : FetchOutcome) (err : JsError) (s : State) :
  handleLocate_try engine fetched = inl err ->
  handleLocate_settle engine fetched s =
  {| imageFile := imageFile s; previewUrl := previewUrl s; loading := false;
     result := result s; error := Some (catch_message err) |}.
Proof. intros Ht. unfold handleLocate_settle. rewrite Ht. reflexivity. Qed.

Lemma settle_fulfilled (fetched : FetchOutcome) (data : JSON) (s : State) :
  handleLocate_try engine fetched = inr data ->
  handleLocate_settle engine fetched s =
  {| imageFile := imageFile s; previewUrl := previewUrl s; loading := false;
     result := data; error := error s |}.
Proof. intros Ht. unfold handleLocate_settle. rewrite Ht. reflexivity. Qed.

(** A page with an error and no result shows the banner and no panel. *)
Lemma render_error_only (s : State) (msg : string) :
  result s = JNull -> error s = Some msg -> msg <> "" ->
  exists view, render engine s = inr view /\
               error_banner view = Some msg /\ result_section view = NoPanel.
Proof.
  intros Hres Herr Hne. unfold render. rewrite Hres, Herr. simpl.
  eexists. split; [reflexivity|]. simpl. split; [|reflexivity].
  apply String.eqb_neq in Hne. now rewrite Hne.
Qed.

(** The request in flight fails with [err]: the page ends in the Error
    state with the message of [err] on screen. *)
Lemma settle_failure (w : World) (i : nat) (body : FormData) (fetched : FetchOutcome)
    (err : JsError) :
  reachable engine w -> inflight w !! i = Some body ->
  handleLocate_try engine fetched = inl err ->
  let w' := step engine w (FetchSettles i fetched) in
  error (ui w') = Some (catch_message err) /\ result (ui w') = JNull /\
  loading (ui w') = false /\
  exists view, render engine (ui w') = inr view /\
               error_banner view = Some (catch_message err) /\
               result_section view = NoPanel.
Proof.
  intros Hr Hi Ht w'. subst w'.
  destruct (inflight_inv engine w i body Hr Hi) as (_ & _ & _ & _ & Hres).
  rewrite (settle_inflight w i body fetched Hr Hi). cbn [ui].
  rewrite (settle_rejected fetched err _ Ht). cbn [error result loading].
  repeat split; try assumption.
  apply render_error_only; simpl; auto using catch_message_nonempty.
Qed.

End SettleFacts.

(** ** The backend says "model unavailable" *)

(** C1 (counterexample).  The page has submitted a photo through the
    proxy and the backend answers 500 with the body
    [{"error":"model unavailable"}]: the banner shows the proxy's wrapping of
    the raw body text, not the backend's message alone. *)
Lemma proxied_message_is_wrapped :
  let w := step Sample.engine Sample.submitted
             (FetchSettles 0
                (EndToEnd.via_proxy Sample.engine Sample.env
                   (Sample.always (inr Sample.model_unavailable))
                   [("file", EntryFile Sample.photo)])) in
  error (ui w) = Some ("GeoAPI error: " ++ Sample.model_unavailable_text) /\
  error (ui w) <> Some "model unavailable".
Proof. split; [vm_compute; reflexivity|vm_compute; discriminate]. Qed.

(** C1 (amended).  For every submission in flight: when the response the
    page receives is HTTP 500 with the body [{"error":"model unavailable"}],
    the page ends with the banner "model unavailable" and no result panel;
    when it is the backend behind the proxy that answers so, the page ends
    with the banner "GeoAPI error: " followed by the backend's raw body
    text, and no result panel. *)
Theorem model_unavailable_message (engine : Engine) (env : Env) (w : World)
    (i : nat) (body : FormData) :
  reachable engine w -> inflight w !! i = Some body ->
  let direct := step engine w (FetchSettles i (inr Sample.model_unavailable)) in
  let proxied :=
    step engine w
      (FetchSettles i
         (EndToEnd.via_proxy engine env
            (Sample.always (inr Sample.model_unavailable)) body)) in
  (in_error_state (ui direct) "model unavailable" /\
   exists view, render engine (ui direct) = inr view /\
                error_banner view = Some "model unavailable" /\
                result_section view = NoPanel) /\
  (in_error_state (ui proxied) ("GeoAPI error: " ++ Sample.model_unavailable_text) /\
   exists view, render engine (ui proxied) = inr view /\
                error_banner view = Some ("GeoAPI error: " ++ Sample.model_unavailable_text) /\
                result_section view = NoPanel).
Proof.
  intros Hr Hi direct proxied.
  destruct (inflight_inv engine w i body Hr Hi) as (_ & [file ->] & _).
  split.
  - destruct (settle_failure engine w i _ (inr Sample.model_unavailable)
                {| message := "model unavailable" |} Hr Hi eq_refl)
      as (Herr & Hres & Hl & Hview).
    split; [|exact Hview]. repeat split; try assumption. discriminate.
  - destruct (settle_failure engine w i _
                (EndToEnd.via_proxy engine env
                   (Sample.always (inr Sample.model_unavailable))
                   [("file", EntryFile file)])
                {| message := "GeoAPI error: " ++ Sample.model_unavailable_text |} Hr Hi)
      as (Herr & Hres & Hl & Hview); [vm_compute; reflexivity|].
    split; [|exact Hview]. repeat split; try assumption. discriminate.
Qed.

Lemma model_unavailable_message_witness :
  in_error_state
    (ui (step Sample.engine Sample.submitted
           (FetchSettles 0 (inr Sample.model_unavailable))))
    "model unavailable".
Proof.
  apply (model_unavailable_message Sample.engine Sample.env Sample.submitted 0
           [("file", EntryFile Sample.photo)]).
  - apply reachable_run. constructor.
  - reflexivity.
Defined.

(** ** Failures inside the proxy *)

(** C8.  Whenever the [try] block of [POST] throws (the form data cannot
    be read, the backend cannot be reached, a body cannot be read, a
    response cannot be built), the proxy answers 500 with the fixed message
    "Internal Server Error" in [error] and the message of the exception in
    the separate field [details]; and a page that receives this answer for
    its submission shows "Internal Server Error", whatever [details] says,
    and no result panel. *)
Theorem internal_error_stays_generic (engine : Engine) (env : Env)
    (request : NextRequest) (net : Backend) (effects : list Effect) (err : JsError)
    (w : World) (i : nat) (body : FormData) :
  POST_try engine env request net = (effects, inl err) ->
  reachable engine w -> inflight w !! i = Some body ->
  let response := snd (POST engine env request net) in
  let w' := step engine w (FetchSettles i (inr (EndToEnd.delivered engine response))) in
  response = {| response_status := 500;
                response_body := JObj [("error", JStr "Internal Server Error");
                                       ("details", JStr (message err))] |} /\
  in_error_state (ui w') "Internal Server Error" /\
  exists view, render engine (ui w') = inr view /\
               error_banner view = Some "Internal Server Error" /\
               result_section view = NoPanel.
Proof.
  intros Htry Hr Hi response w'.
  assert (Hresp : response =
                  {| response_status := 500;
                     response_body := JObj [("error", JStr "Internal Server Error");
                                            ("details", JStr (message err))] |}).
  { subst response. unfold POST, try_catch. rewrite Htry. reflexivity. }
  split; [exact Hresp|]. subst w'. rewrite Hresp.
  destruct (settle_failure engine w i body
              (inr (EndToEnd.delivered engine
                      {| response_status := 500;
                         response_body := JObj [("error", JStr "Internal Server Error");
                                                ("details", JStr (message err))] |}))
              {| message := "Internal Server Error" |} Hr Hi eq_refl)
    as (Herr & Hres & Hl & Hview).
  split; [|exact Hview]. repeat split; try assumption. discriminate.
Qed.

Lemma internal_error_stays_generic_witness :
  snd (POST Sample.engine Sample.env (Sample.upload Sample.photo)
         (Sample.always Sample.unreachable))
  = {| response_status := 500;
       response_body := JObj [("error", JStr "Internal Server Error");
                              ("details", JStr "fetch failed")] |}
  /\
  in_error_state
    (ui (step Sample.engine Sample.submitted
           (FetchSettles 0
              (EndToEnd.via_proxy Sample.engine Sample.env
                 (Sample.always Sample.unreachable)
                 [("file", EntryFile Sample.photo)]))))
    "Internal Server Error".
Proof.
  destruct (internal_error_stays_generic Sample.engine Sample.env
              (Sample.upload Sample.photo) (Sample.always Sample.unreachable)
              [Fetch {| call_url := "http://geo.internal:8000/geolocate";
                        call_method := "POST";
                        call_body := [("file", EntryFile Sample.photo)] |}]
              {| message := "fetch failed" |}
              Sample.submitted 0 [("file", EntryFile Sample.photo)])
    as (Hresp & Hstate & _).
  - vm_compute. reflexivity.
  - apply reachable_run. constructor.
  - reflexivity.
  - split; [exact Hresp|exact Hstate].
Defined.

(** ** What a settled request leaves on the page *)

(** C6 (counterexample).  The backend answers 200 with the body [{}]: the
    object without [lat], [lon] and [confidence] is stored as the result,
    no error is set, and building the result panel throws. *)
Lemma fieldless_body_is_stored :
  let w := step Sample.engine Sample.submitted
             (FetchSettles 0 (inr Sample.empty_object_reply)) in
  result (ui w) = JObj [] /\ error (ui w) = None /\
  showing_success (ui w) = true /\ showing_error (ui w) = false /\
  render Sample.engine (ui w)
  = inl {| message := "Cannot read properties of undefined (reading 'toFixed')" |}.
Proof. repeat split. Qed.

(** C6 (amended).  For every submission in flight: a rejected [fetch], a
    response outside 200..299, and a 2xx response whose body does not parse
    as JSON all end in the Error state with a non-empty message.  For a
    response outside 200..299 the message is the [error] field of the body
    when the body is an object with a non-empty string there, and
    "Server Error: " with the status when the body does not parse or is an
    object without an [error] field.  A 2xx response whose body parses is
    stored as the result whatever fields it has, and sets no error. *)
Theorem failures_become_errors (engine : Engine) (w : World) (i : nat)
    (body : FormData) (fetched : FetchOutcome) :
  reachable engine w -> inflight w !! i = Some body ->
  let s' := ui (step engine w (FetchSettles i fetched)) in
  (forall err, fetched = inl err -> in_error_state s' (catch_message err)) /\
  (forall res, fetched = inr res -> ok res = false ->
     (exists msg, in_error_state s' msg) /\
     (forall props t, json res = inr (JObj props) ->
                      lookup_prop "error" props = Some (JStr t) -> t <> "" ->
                      in_error_state s' t) /\
     ((exists err, json res = inl err) \/
      (exists props, json res = inr (JObj props) /\ lookup_prop "error" props = None) ->
      in_error_state s' ("Server Error: " ++ Z_toString (status res)))) /\
  (forall res err, fetched = inr res -> ok res = true -> json res = inl err ->
     in_error_state s' (catch_message err)) /\
  (forall res data, fetched = inr res -> ok res = true -> json res = inr data ->
     result s' = data /\ error s' = error (ui w) /\ loading s' = false).
Proof.
  intros Hr Hi s'.
  assert (Hfail : forall err, handleLocate_try engine fetched = inl err ->
                              in_error_state s' (catch_message err)).
  { intros err Ht.
    destruct (settle_failure engine w i body fetched err Hr Hi Ht) as (He & Hres & Hl & _).
    repeat split; try assumption. apply catch_message_nonempty. }
  assert (Hmsg : forall msg, msg <> "" -> catch_message {| message := msg |} = msg).
  { intros msg Hne. unfold catch_message. simpl.
    apply String.eqb_neq in Hne. now rewrite Hne. }
  split; [|split; [|split]].
  - intros err ->. now apply Hfail.
  - intros res -> Hok. split; [|split].
    + unfold handleLocate_try in Hfail. rewrite Hok in Hfail. simpl in Hfail.
      destruct (read_property engine _ "error") as [err|[v|]]; eauto.
      destruct (truthy v); eauto. destruct (ToString v); eauto.
    + intros props t Hjson Hprop Hne. rewrite <- (Hmsg t Hne). apply Hfail.
      unfold handleLocate_try. rewrite Hok, Hjson. simpl. rewrite Hprop. simpl.
      apply String.eqb_neq in Hne. now rewrite Hne.
    + intros Hcase.
      rewrite <- (Hmsg ("Server Error: " ++ Z_toString (status res))) by discriminate.
      apply Hfail. unfold handleLocate_try. rewrite Hok. simpl.
      destruct Hcase as [[err ->]|(props & -> & Hnone)]; simpl; [reflexivity|].
      now rewrite Hnone.
  - intros res err -> Hok Hjson. apply Hfail.
    unfold handleLocate_try. rewrite Hok. simpl. exact Hjson.
  - intros res data -> Hok Hjson. subst s'.
    rewrite (settle_inflight engine w i body _ Hr Hi). cbn [ui].
    rewrite (settle_fulfilled engine _ data); [auto|].
    unfold handleLocate_try. rewrite Hok. simpl. exact Hjson.
Qed.

Lemma failures_become_errors_witness :
  in_error_state
    (ui (step Sample.engine Sample.submitted (FetchSettles 0 (inr Sample.bad_image))))
    "Server Error: 400".
Proof.
  destruct (failures_become_errors Sample.engine Sample.submitted 0
              [("file", EntryFile Sample.photo)] (inr Sample.bad_image))
    as (_ & Hbad & _).
  - apply reachable_run. constructor.
  - reflexivity.
  - destruct (Hbad Sample.bad_image eq_refl eq_refl) as (_ & _ & Hgeneric).
    apply Hgeneric. left. eexists. reflexivity.
Defined.

(** ** A new selection while a request is in flight *)

(** C2 (counterexample).  A photo is submitted, another one is selected
    while the request is in flight, then the response for the first photo
    arrives: its coordinates are stored beside the second photo. *)
Lemma stale_response_overwrites_selection :
  let w := run Sample.engine start
             [FileChange (Some [Sample.photo]) "blob:1";
              LocateClick;
              FileChange (Some [Sample.other_photo]) "blob:2";
              FetchSettles 0 (inr Sample.paris_reply)] in
  imageFile (ui w) = Some Sample.other_photo /\
  result (ui w) = Sample.paris /\
  result (ui w) <> JNull.
Proof. repeat split. discriminate. Qed.

(** C2 (amended).  For every submission in flight, a new selection clears
    the result and the error at that moment and leaves the request in
    flight; when the response then arrives it is applied to the page all the
    same: the newly selected file and its preview stay, the spinner stops,
    and the response's data becomes the result, or its failure the error. *)
Theorem stale_response_still_applies (engine : Engine) (w : World) (i : nat)
    (body : FormData) (ev : Event) (file : File) (url : string)
    (fetched : FetchOutcome) :
  reachable engine w -> inflight w !! i = Some body ->
  selection_of ev = Some (file, url) ->
  let w1 := step engine w ev in
  let w2 := step engine w1 (FetchSettles i fetched) in
  (result (ui w1) = JNull /\ error (ui w1) = None /\ inflight w1 = inflight w) /\
  imageFile (ui w2) = Some file /\ previewUrl (ui w2) = Some url /\
  loading (ui w2) = false /\
  match handleLocate_try engine fetched with
  | inr data => result (ui w2) = data /\ error (ui w2) = None
  | inl err => result (ui w2) = JNull /\ error (ui w2) = Some (catch_message err)
  end.
Proof.
  intros Hr Hi Hsel w1 w2.
  assert (Hw1 : w1 = {| ui := handleFileSelection file url (ui w); inflight := inflight w |})
    by (apply step_selection, Hsel).
  assert (Hr1 : reachable engine w1) by (now constructor).
  assert (Hi1 : inflight w1 !! i = Some body) by (rewrite Hw1; exact Hi).
  split; [rewrite Hw1; repeat split|].
  subst w2. rewrite (settle_inflight engine w1 i body fetched Hr1 Hi1). cbn [ui].
  rewrite Hw1. cbn [ui]. unfold handleLocate_settle.
  destruct (handleLocate_try engine fetched) as [err|data]; repeat split.
Qed.

Lemma stale_response_still_applies_witness :
  let w2 := step Sample.engine
              (step Sample.engine Sample.submitted
                 (GlobalPaste (Some [Sample.other_photo]) "blob:2"))
              (FetchSettles 0 (inr Sample.paris_reply)) in
  imageFile (ui w2) = Some Sample.other_photo /\ loading (ui w2) = false.
Proof.
  destruct (stale_response_still_applies Sample.engine Sample.submitted 0
              [("file", EntryFile Sample.photo)]
              (GlobalPaste (Some [Sample.other_photo]) "blob:2")
              Sample.other_photo "blob:2" (inr Sample.paris_reply))
    as (_ & Hfile & _ & Hl & _).
  - apply reachable_run. constructor.
  - reflexivity.
  - reflexivity.
  - split; [exact Hfile|exact Hl].
Defined.

(** ** The result panel *)

Lemma render_paris (engine : Engine) :
  render_result engine Sample.paris =
  inr (Panel {| latitude_text := "48.85660";
                longitude_text := "2.35220";
                confidence_bar_width := "87%";
                confidence_text := "87.0%";
                maps_href :=
                  "https://www.google.com/maps/search/?api=1&query=48.8566,2.3522" |}).
Proof. vm_compute. reflexivity. Qed.

(** C5.  For every submission in flight, once the answer with the body
    [{lat: 48.8566, lon: 2.3522, confidence: 0.87}] has arrived, directly or
    from the backend through the proxy, the page renders a result panel
    with latitude "48.85660", longitude "2.35220", confidence "87.0%" and a
    map link that contains "48.8566,2.3522". *)
Theorem paris_display (engine : Engine) (env : Env) (w : World) (i : nat)
    (body : FormData) :
  reachable engine w -> inflight w !! i = Some body ->
  displays engine (ui (step engine w (FetchSettles i (inr Sample.paris_reply))))
    "48.85660" "2.35220" "87.0%" "48.8566,2.3522" /\
  displays engine
    (ui (step engine w
           (FetchSettles i
              (EndToEnd.via_proxy engine env
                 (Sample.always (inr Sample.paris_reply)) body))))
    "48.85660" "2.35220" "87.0%" "48.8566,2.3522".
Proof.
  intros Hr Hi.
  destruct (inflight_inv engine w i body Hr Hi) as (_ & [file ->] & _).
  assert (Hshow : forall fetched,
            handleLocate_try engine fetched = inr Sample.paris ->
            displays engine (ui (step engine w (FetchSettles i fetched)))
              "48.85660" "2.35220" "87.0%" "48.8566,2.3522").
  { intros fetched Ht.
    rewrite (settle_inflight engine w i _ fetched Hr Hi). cbn [ui].
    rewrite (settle_fulfilled engine fetched Sample.paris _ Ht).
    unfold displays, render. cbn [result]. rewrite render_paris.
    eexists _, _. split; [reflexivity|]. cbn [result_section].
    split; [reflexivity|]. repeat split. }
  split; apply Hshow; [reflexivity|vm_compute; reflexivity].
Qed.

Lemma paris_display_witness :
  displays Sample.engine
    (ui (step Sample.engine Sample.submitted
           (FetchSettles 0
              (EndToEnd.via_proxy Sample.engine Sample.env
                 (Sample.always (inr Sample.paris_reply))
                 [("file", EntryFile Sample.photo)]))))
    "48.85660" "2.35220" "87.0%" "48.8566,2.3522".
Proof.
  apply (paris_display Sample.engine Sample.env Sample.submitted 0
           [("file", EntryFile Sample.photo)]).
  - apply reachable_run. constructor.
  - reflexivity.
Defined.

(** * Further properties of the page *)

(** ** Selecting a file *)

(** X1.  Whatever way a file is selected (file chooser, Ctrl+V, Paste
    button), the page then holds that file and its preview URL, has no
    result and no error, keeps its spinner as it was and its request in
    flight, and renders the preview with no banner and no result panel. *)
Theorem selection_resets_page (engine : Engine) (w : World) (ev : Event)
    (file : File) (url : string) :
  selection_of ev = Some (file, url) -> url <> "" ->
  let w' := step engine w ev in
  ui w' = {| imageFile := Some file; previewUrl := Some url;
             loading := loading (ui w); result := JNull; error := None |} /\
  inflight w' = inflight w /\
  render engine (ui w') =
  inr {| preview_src := Some url;
         locate_disabled := loading (ui w);
         locate_label := if loading (ui w) then "Processing..." else "Locate Image";
         error_banner := None;
         result_section := NoPanel |}.
Proof.
  intros Hsel Hurl w'. subst w'. rewrite (step_selection engine w ev file url Hsel).
  cbn [ui inflight]. rewrite handleFileSelection_cells.
  split; [reflexivity|]. split; [reflexivity|].
  unfold render, submit_disabled. simpl.
  apply String.eqb_neq in Hurl. rewrite Hurl. reflexivity.
Qed.

Lemma selection_resets_page_witness :
  let w := step Sample.engine Sample.submitted
             (GlobalPaste (Some [Sample.other_photo]) "blob:2") in
  imageFile (ui w) = Some Sample.other_photo /\ loading (ui w) = true /\
  inflight w = [[("file", EntryFile Sample.photo)]].
Proof.
  destruct (selection_resets_page Sample.engine Sample.submitted
              (GlobalPaste (Some [Sample.other_photo]) "blob:2")
              Sample.other_photo "blob:2" eq_refl)
    as (Hui & Hin & _); [discriminate|].
  cbv zeta. rewrite Hui, Hin. repeat split.
Defined.

(** ** The Paste button *)

Lemma find_image_none (l : list string) :
  existsb is_image_type l = false -> List.find is_image_type l = None.
Proof.
  induction l as [|t l IH]; simpl; [reflexivity|].
  destruct (is_image_type t); simpl; [discriminate|exact IH].
Qed.

Lemma clipboard_image_skips (skipped rest : list ClipboardItem) :
  forallb (fun item => negb (has_image item)) skipped = true ->
  clipboard_image (skipped ++ rest)%list = clipboard_image rest.
Proof.
  induction skipped as [|item skipped IH]; simpl; [reflexivity|].
  intros Hs. apply andb_prop in Hs as [Hitem Hs]. apply negb_true_iff in Hitem.
  unfold has_image in Hitem. rewrite (find_image_none _ Hitem). now apply IH.
Qed.

(** X2.  The Paste button: a refused clipboard read sets the "access
    denied" error; a clipboard none of whose items offers an image type sets
    "No image found in clipboard."; otherwise the first item that offers an
    image type decides alone, with the first image type it lists: its blob
    is selected as the file "pasted-image.png" of that type, and if reading
    that blob fails the "access denied" error is set, whatever the later
    items hold.  Both errors leave every other cell as it was. *)
Theorem paste_click_outcomes (s : State) (url : string) :
  (forall err, onPasteClick (inl err) url s
               = setError (Some "Clipboard access denied. Try Ctrl+V.") s) /\
  (forall items,
     forallb (fun item => negb (has_image item)) items = true ->
     onPasteClick (inr items) url s = setError (Some "No image found in clipboard.") s) /\
  (forall skipped item rest imageType,
     forallb (fun item => negb (has_image item)) skipped = true ->
     List.find is_image_type (types item) = Some imageType ->
     onPasteClick (inr (skipped ++ item :: rest)%list) url s =
     match getType item imageType with
     | inr blob =>
         handleFileSelection {| file_name := "pasted-image.png";
                                file_type := imageType;
                                file_content := blob_content blob |} url s
     | inl _ => setError (Some "Clipboard access denied. Try Ctrl+V.") s
     end).
Proof.
  split; [reflexivity|]. split.
  - intros items Hnone. unfold onPasteClick, onPasteClick_try.
    rewrite <- (app_nil_r items), (clipboard_image_skips items [] Hnone). reflexivity.
  - intros skipped item rest imageType Hskip Hfind.
    unfold onPasteClick, onPasteClick_try.
    rewrite (clipboard_image_skips skipped _ Hskip). simpl. rewrite Hfind.
    destruct (getType item imageType); reflexivity.
Qed.

Lemma paste_click_outcomes_witness :
  let text_item := {| types := ["text/plain"];
                      getType := fun _ => inr {| blob_type := "text/plain";
                                                 blob_content := "hello" |} |} in
  let image_item := {| types := ["text/html"; "image/png"];
                       getType := fun t => inr {| blob_type := t;
                                                  blob_content := "PNG" |} |} in
  onPasteClick (inr [text_item; image_item; text_item]) "blob:3" initial =
  handleFileSelection {| file_name := "pasted-image.png"; file_type := "image/png";
                         file_content := "PNG" |} "blob:3" initial.
Proof.
  intros text_item image_item.
  destruct (paste_click_outcomes initial "blob:3") as (_ & _ & Hfirst).
  exact (Hfirst [text_item] image_item [text_item] "image/png" eq_refl eq_refl).
Defined.

(** ** Ctrl+V *)

(** X3.  The global paste handler looks at the first pasted file only: when
    that file is not an image, the page and its requests stay exactly as
    they are, even if the files after it are images; when it is an image, it
    is the one selected. *)
Theorem global_paste_first_file_only (engine : Engine) (w : World) (first : File)
    (others : list File) (url : string) :
  (is_image_type (file_type first) = false ->
   step engine w (GlobalPaste (Some (first :: others)) url) = w) /\
  (is_image_type (file_type first) = true ->
   step engine w (GlobalPaste (Some (first :: others)) url)
   = {| ui := handleFileSelection first url (ui w); inflight := inflight w |}).
Proof.
  split; intros Himg; simpl; rewrite Himg; [destruct w|]; reflexivity.
Qed.

Lemma global_paste_first_file_only_witness :
  let notes := {| file_name := "notes.txt"; file_type := "text/plain";
                  file_content := "hello" |} in
  step Sample.engine Sample.submitted (GlobalPaste (Some [notes; Sample.photo]) "blob:4")
  = Sample.submitted.
Proof.
  intros notes.
  exact (proj1 (global_paste_first_file_only Sample.engine Sample.submitted notes
                  [Sample.photo] "blob:4") eq_refl).
Defined.

(** ** What the page keeps true *)

Section Tidiness.
Variable engine : Engine.

Lemma setError_tidy (s : State) (msg : string) :
  msg <> "" -> tidy s -> tidy (setError (Some msg) s).
Proof.
  intros Hne (Hnone & Hprev & _). unfold tidy. simpl.
  split; [exact Hnone|]. split; [exact Hprev|]. congruence.
Qed.

Lemma handleFileSelection_tidy (file : File) (url : string) (s : State) :
  tidy (handleFileSelection file url s).
Proof. unfold tidy. simpl. repeat split; discriminate. Qed.

Lemma step_tidy (w : World) (ev : Event) :
  coherent w -> tidy (ui w) -> tidy (ui (step engine w ev)).
Proof.
  intros Hc Ht.
  destruct ev as [files u|files u|clipboard u| |i fetched]; simpl.
  - destruct files as [[|f fs]|]; simpl; auto using handleFileSelection_tidy.
  - destruct files as [[|f fs]|]; simpl; auto.
    destruct (is_image_type (file_type f)); auto using handleFileSelection_tidy.
  - unfold onPasteClick. destruct (onPasteClick_try clipboard) as [err|[f|]];
      auto using handleFileSelection_tidy; apply setError_tidy; auto; discriminate.
  - unfold click_locate, submit_disabled, handleLocate_start.
    destruct (imageFile (ui w)) as [file|] eqn:Hfile; simpl; [|exact Ht].
    destruct (loading (ui w)); simpl; [exact Ht|].
    destruct Ht as (_ & Hprev & _). unfold tidy. simpl. rewrite Hfile.
    repeat split; try discriminate. intros Hp. specialize (Hprev Hp). congruence.
  - unfold settle. destruct (inflight w !! i) as [body|] eqn:Hi; [|exact Ht].
    simpl. unfold coherent in Hc. destruct (loading (ui w)) eqn:Hl.
    + destruct Ht as (Hnone & Hprev & Herr). unfold tidy, handleLocate_settle.
      destruct (handleLocate_try engine fetched) as [err|data]; simpl.
      * split; [intros Hf; destruct (Hnone Hf) as (_ & Habs & _); congruence|].
        split; [exact Hprev|]. intros [= Habs]. now apply (catch_message_nonempty err).
      * split; [intros Hf; destruct (Hnone Hf) as (_ & Habs & _); congruence|].
        split; [exact Hprev|exact Herr].
    + rewrite Hc in Hi. discriminate.
Qed.

Lemma reachable_tidy (w : World) : reachable engine w -> tidy (ui w).
Proof.
  induction 1 as [|w ev Hr IH].
  - unfold tidy. simpl. repeat split; discriminate.
  - apply step_tidy; [now apply reachable_coherent with (engine := engine)|exact IH].
Qed.

End Tidiness.

(** X4.  As long as no file has been selected there is no preview, no
    spinner, no result and no request in flight, and a click on the action
    button changes nothing; and a page has a preview exactly when it has a
    file. *)
Theorem nothing_without_image (engine : Engine) (w : World) :
  reachable engine w ->
  (imageFile (ui w) = None <-> previewUrl (ui w) = None) /\
  (imageFile (ui w) = None ->
   loading (ui w) = false /\ result (ui w) = JNull /\ inflight w = [] /\
   step engine w LocateClick = w).
Proof.
  intros Hr. pose proof (reachable_tidy engine w Hr) as (Hnone & Hprev & _).
  pose proof (reachable_coherent engine w Hr) as Hc.
  split; [split; [apply Hnone|exact Hprev]|].
  intros Hfile. destruct (Hnone Hfile) as (_ & Hl & Hres).
  unfold coherent in Hc. rewrite Hl in Hc.
  repeat split; try assumption.
  simpl. unfold click_locate, submit_disabled. rewrite Hfile. reflexivity.
Qed.

Lemma nothing_without_image_witness :
  let w := run Sample.engine start
             [PasteClick (inl {| message := "NotAllowedError" |}) "blob:1"; LocateClick] in
  error (ui w) = Some "Clipboard access denied. Try Ctrl+V." /\ inflight w = [].
Proof.
  intros w. split; [reflexivity|].
  destruct (nothing_without_image Sample.engine w) as (_ & Hnone).
  - apply reachable_run. constructor.
  - destruct (Hnone eq_refl) as (_ & _ & Hin & _). exact Hin.
Defined.

(** X5.  No handler ever takes the selected file away: once a file is
    selected, a file stays selected after every event. *)
Theorem image_stays_selected (engine : Engine) (w : World) (ev : Event) :
  imageFile (ui w) <> None -> imageFile (ui (step engine w ev)) <> None.
Proof.
  intros Hsome.
  destruct ev as [files u|files u|clipboard u| |i fetched]; simpl.
  - destruct files as [[|f fs]|]; simpl; auto; discriminate.
  - destruct files as [[|f fs]|]; simpl; auto.
    destruct (is_image_type (file_type f)); simpl; auto; discriminate.
  - unfold onPasteClick. destruct (onPasteClick_try clipboard) as [err|[f|]]; simpl;
      auto; discriminate.
  - unfold click_locate, handleLocate_start.
    destruct (submit_disabled (ui w)); [exact Hsome|].
    destruct (imageFile (ui w)) eqn:Hfile; simpl; [rewrite Hfile; discriminate|congruence].
  - unfold settle. destruct (inflight w !! i); [|exact Hsome].
    simpl. unfold handleLocate_settle.
    destruct (handleLocate_try engine fetched); exact Hsome.
Qed.

Lemma image_stays_selected_witness :
  imageFile (ui (step Sample.engine Sample.submitted
                   (FetchSettles 0 Sample.unreachable))) <> None.
Proof.
  apply (image_stays_selected Sample.engine Sample.submitted).
  vm_compute. discriminate.
Defined.

(** X6.  The spinner shows exactly while a request is in flight: in every
    reachable state the busy flag is set if and only if a request has not
    settled yet, and the action button then reads "Processing...". *)
Theorem spinner_iff_in_flight (engine : Engine) (w : World) :
  reachable engine w ->
  (loading (ui w) = true <-> inflight w <> []) /\
  (forall view, render engine (ui w) = inr view ->
                (locate_label view = "Processing..." <-> inflight w <> [])).
Proof.
  intros Hr. pose proof (reachable_coherent engine w Hr) as Hc. unfold coherent in Hc.
  assert (Hiff : loading (ui w) = true <-> inflight w <> []).
  { destruct (loading (ui w)).
    - destruct Hc as [[file ->] _]. split; [discriminate|reflexivity].
    - rewrite Hc. split; [discriminate|congruence]. }
  split; [exact Hiff|].
  intros view Hview. unfold render in Hview.
  destruct (render_result engine (result (ui w))); [discriminate|].
  injection Hview as <-. cbn [locate_label]. rewrite <- Hiff.
  destruct (loading (ui w)); split; try reflexivity; discriminate.
Qed.

Lemma spinner_iff_in_flight_witness :
  loading (ui Sample.submitted) = true.
Proof.
  apply (spinner_iff_in_flight Sample.engine Sample.submitted).
  - apply reachable_run. constructor.
  - vm_compute. discriminate.
Defined.

(** X7.  Once the request in flight has settled, whenever the page still
    renders, the action button is enabled and reads "Locate Image", a file
    is still selected, and a click starts exactly one request, which carries
    the file selected at that moment, with the result and the error cleared.
    The page always still renders when the request failed; it need not when
    a 2xx body was stored on which building the result panel throws. *)
Theorem resubmit_after_settle (engine : Engine) (w : World) (i : nat)
    (body : FormData) (fetched : FetchOutcome) :
  reachable engine w -> inflight w !! i = Some body ->
  let w1 := step engine w (FetchSettles i fetched) in
  let w2 := step engine w1 LocateClick in
  (forall view,
     render engine (ui w1) = inr view ->
     locate_disabled view = false /\ locate_label view = "Locate Image" /\
     exists file,
       imageFile (ui w1) = Some file /\
       inflight w2 = [[("file", EntryFile file)]] /\
       loading (ui w2) = true /\ result (ui w2) = JNull /\ error (ui w2) = None) /\
  (forall err, handleLocate_try engine fetched = inl err ->
               exists view, render engine (ui w1) = inr view).
Proof.
  intros Hr Hi w1 w2.
  destruct (inflight_inv engine w i body Hr Hi) as (_ & _ & _ & Hl & Hres).
  pose proof (reachable_tidy engine w Hr) as (Hnone & _).
  destruct (imageFile (ui w)) as [file|] eqn:Hfile;
    [|destruct (Hnone eq_refl) as (_ & Habs & _); congruence].
  assert (Hw1 : w1 = {| ui := handleLocate_settle engine fetched (ui w); inflight := [] |})
    by (apply settle_inflight with (body := body); assumption).
  assert (Hf1 : imageFile (ui w1) = Some file).
  { rewrite Hw1. cbn [ui]. unfold handleLocate_settle.
    destruct (handleLocate_try engine fetched); exact Hfile. }
  assert (Hl1 : loading (ui w1) = false).
  { rewrite Hw1. cbn [ui]. unfold handleLocate_settle.
    destruct (handleLocate_try engine fetched); reflexivity. }
  assert (Hen : submit_disabled (ui w1) = false)
    by (unfold submit_disabled; rewrite Hf1, Hl1; reflexivity).
  split.
  - intros view Hview. unfold render in Hview.
    destruct (render_result engine (result (ui w1))); [discriminate|].
    injection Hview as <-. cbn [locate_disabled locate_label]. rewrite Hen, Hl1.
    split; [reflexivity|]. split; [reflexivity|].
    exists file. split; [exact Hf1|]. subst w2. simpl.
    unfold click_locate, handleLocate_start. rewrite Hen, Hf1. rewrite Hw1. simpl.
    repeat split.
  - intros err Ht. unfold render. rewrite Hw1. cbn [ui].
    rewrite (settle_rejected engine fetched err _ Ht). cbn [result]. rewrite Hres.
    eexists. reflexivity.
Qed.

Lemma resubmit_after_settle_witness :
  exists view,
    render Sample.engine
      (ui (step Sample.engine Sample.submitted (FetchSettles 0 Sample.unreachable)))
    = inr view.
Proof.
  destruct (resubmit_after_settle Sample.engine Sample.submitted 0
              [("file", EntryFile Sample.photo)] Sample.unreachable)
    as (_ & Hrenders).
  - apply reachable_run. constructor.
  - reflexivity.
  - exact (Hrenders {| message := "fetch failed" |} eq_refl).
Defined.

(** X8.  A stored error always has a text: in every reachable state the
    error cell is never the empty string, so the banner is on screen
    exactly when an error is stored, and shows it unchanged. *)
Theorem error_banner_is_error (engine : Engine) (w : World) :
  reachable engine w ->
  error (ui w) <> Some "" /\
  (forall view, render engine (ui w) = inr view -> error_banner view = error (ui w)).
Proof.
  intros Hr. pose proof (reachable_tidy engine w Hr) as (_ & _ & Herr).
  split; [exact Herr|].
  intros view Hview. unfold render in Hview.
  destruct (render_result engine (result (ui w))); [discriminate|].
  injection Hview as <-. cbn [error_banner]. unfold nonempty.
  destruct (error (ui w)) as [msg|]; [|reflexivity].
  destruct (String.eqb msg "") eqn:He; [|reflexivity].
  apply String.eqb_eq in He. congruence.
Qed.

Lemma error_banner_is_error_witness :
  error (ui (step Sample.engine Sample.submitted
               (FetchSettles 0 (inl {| message := "" |})))) <> Some "".
Proof.
  apply (error_banner_is_error Sample.engine).
  apply reachable_run with (evs := [FetchSettles 0 (inl {| message := "" |})]).
  apply reachable_run. constructor.
Defined.

(** ** Odd error bodies *)

(** X9.  For a response outside 200..299 to the request in flight: a body
    that is a string, a number, a boolean or an array, and an object whose
    [error] field is [null], [false], [0] or the empty string, all give the
    generic "Server Error: " message with the status; an [error] field that
    is itself an object is shown as "[object Object]" when that object has no
    own [toString] key, and when it has one the conversion throws and the
    engine's own message for it is shown; and the body [null] shows the
    engine's own message for reading a property of [null]. *)
Theorem odd_error_bodies (engine : Engine) (w : World) (i : nat) (body : FormData)
    (res : Response) :
  reachable engine w -> inflight w !! i = Some body -> ok res = false ->
  let s' := ui (step engine w (FetchSettles i (inr res))) in
  let generic := "Server Error: " ++ Z_toString (status res) in
  let thrown fault :=
    error s' = Some (catch_message {| message := fault_message engine fault |}) /\
    result s' = JNull /\ loading s' = false in
  (forall v, json res = inr v ->
             match v with JNull | JObj _ => False | _ => True end ->
             in_error_state s' generic) /\
  (forall props v, json res = inr (JObj props) ->
                   lookup_prop "error" props = Some v -> truthy v = false ->
                   in_error_state s' generic) /\
  (forall props inner, json res = inr (JObj props) ->
                       lookup_prop "error" props = Some (JObj inner) ->
                       match lookup_prop "toString" inner with
                       | None => in_error_state s' "[object Object]"
                       | Some _ => thrown NotPrimitive
                       end) /\
  (json res = inr JNull -> thrown (ReadOfNull "error")).
Proof.
  intros Hr Hi Hok s' generic thrown.
  assert (Hthrown : forall fault,
            handleLocate_try engine (inr res)
            = inl {| message := fault_message engine fault |} -> thrown fault).
  { intros fault Ht.
    destruct (settle_failure engine w i body (inr res) _ Hr Hi Ht) as (He & Hres & Hl & _).
    repeat split; assumption. }
  assert (Hfail : forall msg, msg <> "" ->
            handleLocate_try engine (inr res) = inl {| message := msg |} ->
            in_error_state s' msg).
  { intros msg Hne Ht.
    destruct (settle_failure engine w i body (inr res) _ Hr Hi Ht) as (He & Hres & Hl & _).
    unfold catch_message in He. simpl in He.
    apply String.eqb_neq in Hne as Hne'. rewrite Hne' in He.
    repeat split; assumption. }
  assert (Hgen : generic <> "") by discriminate.
  unfold handleLocate_try in Hfail, Hthrown.
  rewrite Hok in Hfail, Hthrown. simpl in Hfail, Hthrown.
  split; [|split; [|split]].
  - intros v Hjson Hshape. apply (Hfail generic Hgen). rewrite Hjson.
    destruct v; simpl; try reflexivity; contradiction.
  - intros props v Hjson Hprop Hfalsy. apply (Hfail generic Hgen).
    rewrite Hjson. simpl. rewrite Hprop, Hfalsy. reflexivity.
  - intros props inner Hjson Hprop.
    destruct (lookup_prop "toString" inner) as [method|] eqn:Hown.
    + apply Hthrown. rewrite Hjson. simpl. rewrite Hprop. simpl. rewrite Hown. reflexivity.
    + apply Hfail; [discriminate|].
      rewrite Hjson. simpl. rewrite Hprop. simpl. rewrite Hown. reflexivity.
  - intros Hjson. apply Hthrown. rewrite Hjson. reflexivity.
Qed.

Lemma odd_error_bodies_witness :
  let res := {| status := 502; text := inr "[]"; json := inr (JArr []) |} in
  in_error_state
    (ui (step Sample.engine Sample.submitted (FetchSettles 0 (inr res))))
    "Server Error: 502".
Proof.
  intros res.
  destruct (odd_error_bodies Sample.engine Sample.submitted 0
              [("file", EntryFile Sample.photo)] res) as (Hshape & _).
  - apply reachable_run. constructor.
  - reflexivity.
  - reflexivity.
  - exact (Hshape (JArr []) eq_refl I).
Defined.

(** ** When the result panel can be built *)

Lemma render_with_numbers (engine : Engine) (props : list (string * JSON))
    (x y : Number) :
  lookup_prop "lat" props = Some (JNum x) ->
  lookup_prop "lon" props = Some (JNum y) ->
  render_result engine (JObj props) =
  match ToNumber engine (lookup_prop "confidence" props) with
  | inl err => inl err
  | inr c =>
      let percent := JsNumber.mul c (JsNumber.of_Z 100) in
      inr (Panel {| latitude_text := JsNumber.toFixed x 5;
                    longitude_text := JsNumber.toFixed y 5;
                    confidence_bar_width := JsNumber.toString percent ++ "%";
                    confidence_text := JsNumber.toFixed percent 1 ++ "%";
                    maps_href := "https://www.google.com/maps/search/?api=1&query="
                                   ++ JsNumber.toString x ++ ","
                                   ++ JsNumber.toString y |})
  end.
Proof.
  intros Hlat Hlon. unfold render_result, render_panel. cbn [truthy read_property].
  rewrite Hlat, Hlon. cbn [call_toFixed].
  destruct (ToNumber engine (lookup_prop "confidence" props)); reflexivity.
Qed.

(** X10.  For a truthy stored result the panel is built if and only if the
    result is an object whose [lat] and [lon] are numbers and whose
    [confidence] converts to a number without throwing; in every other case
    building it throws, and the page has no view at all.  With numeric [lat]
    and [lon], a [confidence] that is absent, [null], a boolean, a number, a
    string, or an object without an own [toString] key never prevents the
    panel; an object with an own [toString] key does. *)
Theorem panel_needs_two_numbers (engine : Engine) (r : JSON) :
  truthy r = true ->
  ((exists panel, render_result engine r = inr (Panel panel)) <->
   (exists props x y c, r = JObj props /\
                        lookup_prop "lat" props = Some (JNum x) /\
                        lookup_prop "lon" props = Some (JNum y) /\
                        ToNumber engine (lookup_prop "confidence" props) = inr c)) /\
  ((exists err, render_result engine r = inl err) \/
   (exists panel, render_result engine r = inr (Panel panel))) /\
  (forall props x y,
     r = JObj props ->
     lookup_prop "lat" props = Some (JNum x) ->
     lookup_prop "lon" props = Some (JNum y) ->
     match lookup_prop "confidence" props with
     | Some (JArr _) => True
     | Some (JObj inner) =>
         match lookup_prop "toString" inner with
         | Some _ => exists err, render_result engine r = inl err
         | None => exists panel, render_result engine r = inr (Panel panel)
         end
     | _ => exists panel, render_result engine r = inr (Panel panel)
     end).
Proof.
  intros Ht. split; [|split].
  - split.
    + intros [panel Hp]. unfold render_result in Hp. rewrite Ht in Hp.
      unfold render_panel in Hp.
      destruct r as [|b|n|t|items|props]; try discriminate. cbn [read_property] in Hp.
      destruct (lookup_prop "lat" props) as [[| |x| | |]|] eqn:Hlat; try discriminate.
      destruct (lookup_prop "lon" props) as [[| |y| | |]|] eqn:Hlon; try discriminate.
      cbn [call_toFixed] in Hp.
      destruct (ToNumber engine (lookup_prop "confidence" props)) as [err|c] eqn:Hc;
        [discriminate|].
      exists props, x, y, c. auto.
    + intros (props & x & y & c & -> & Hlat & Hlon & Hc).
      rewrite (render_with_numbers engine props x y Hlat Hlon), Hc. eexists. reflexivity.
  - unfold render_result. rewrite Ht.
    destruct (render_panel engine r) as [err|panel]; [left|right]; eexists; reflexivity.
  - intros props x y -> Hlat Hlon.
    rewrite (render_with_numbers engine props x y Hlat Hlon).
    destruct (lookup_prop "confidence" props) as [[|b|n|t|items|inner]|];
      try exact I; try (eexists; reflexivity).
    cbn [ToNumber ToString]. destruct (lookup_prop "toString" inner); eexists; reflexivity.
Qed.

Lemma panel_needs_two_numbers_witness :
  exists err,
    render_result Sample.engine
      (JObj [("lat", JNum (JsNumber.decimal 488566 4));
             ("lon", JNum (JsNumber.decimal 23522 4));
             ("confidence", JObj [("toString", JNull)])]) = inl err.
Proof.
  destruct (panel_needs_two_numbers Sample.engine
              (JObj [("lat", JNum (JsNumber.decimal 488566 4));
                     ("lon", JNum (JsNumber.decimal 23522 4));
                     ("confidence", JObj [("toString", JNull)])]) eq_refl)
    as (_ & _ & Hconf).
  exact (Hconf _ _ _ eq_refl eq_refl eq_refl).
Defined.

(** X11.  A result with numeric [lat] and [lon] and no [confidence] field
    is rendered without any error: both coordinates are printed with five
    decimals, and the confidence reads "NaN%". *)
Theorem missing_confidence_shows_NaN (engine : Engine) (props : list (string * JSON))
    (x y : Number) :
  lookup_prop "lat" props = Some (JNum x) ->
  lookup_prop "lon" props = Some (JNum y) ->
  lookup_prop "confidence" props = None ->
  render_result engine (JObj props) =
  inr (Panel {| latitude_text := JsNumber.toFixed x 5;
                longitude_text := JsNumber.toFixed y 5;
                confidence_bar_width := "NaN%";
                confidence_text := "NaN%";
                maps_href := "https://www.google.com/maps/search/?api=1&query="
                               ++ JsNumber.toString x ++ "," ++ JsNumber.toString y |}).
Proof.
  intros Hlat Hlon Hconf. unfold render_result, render_panel. simpl.
  rewrite Hlat, Hlon, Hconf. reflexivity.
Qed.

Lemma missing_confidence_shows_NaN_witness :
  exists panel,
    render_result Sample.engine
      (JObj [("lat", JNum (JsNumber.decimal 488566 4));
             ("lon", JNum (JsNumber.decimal 23522 4))]) = inr (Panel panel) /\
    confidence_text panel = "NaN%" /\ latitude_text panel = "48.85660".
Proof.
  eexists. split.
  - apply (missing_confidence_shows_NaN Sample.engine
             [("lat", JNum (JsNumber.decimal 488566 4));
              ("lon", JNum (JsNumber.decimal 23522 4))]); reflexivity.
  - split; [reflexivity|vm_compute; reflexivity].
Defined.

(** * Further properties of the proxy *)

Section RelayFacts.
Variable engine : Engine.

Lemma bind_await {A B : Type} (a : A) (k : A -> Task B) (net : Backend) :
  bind (await (inr a)) k net = k a net.
Proof. unfold bind, await. destruct (k a net). reflexivity. Qed.

(** [POST] once the [file] entry [v] has passed the guard: the one call and
    what follows from its answer. *)
Lemma POST_after_guard (env : Env) (fd : FormData) (net : Backend)
    (v : FormDataEntryValue) :
  FormData_get "file" fd = Some v -> v <> EntryString "" ->
  POST engine env {| formData := inr fd |} net =
  try_catch
    (bind (fetch (geolocate_url env) "POST" [("file", v)])
       (fun response =>
          if negb (ok response) then
            bind (await (text response))
              (fun errorText =>
                 NextResponse_json engine (error_body ("GeoAPI error: " ++ errorText))
                   (status response))
          else
            bind (await (json response))
              (fun data => NextResponse_json engine data 200)))
    (POST_catch) net.
Proof.
  intros Hget Hne.
  assert (Hf : falsy_entry (Some v) = false).
  { destruct v as [f|t]; [reflexivity|]. simpl. apply String.eqb_neq. congruence. }
  unfold POST, try_catch, POST_try. cbn [formData]. rewrite bind_await. cbv beta zeta.
  rewrite Hget, Hf. reflexivity.
Qed.

Lemma NextResponse_json_relayable (body : JSON) (code : Z) (net : Backend) :
  relayable code = true ->
  NextResponse_json engine body code net =
  ([], inr {| response_status := code; response_body := body |}).
Proof.
  unfold relayable, NextResponse_json. intros Hc.
  apply andb_prop in Hc as [Hc Hn]. apply andb_prop in Hc as [Hlo Hhi].
  apply negb_true_iff in Hn.
  assert (H200 : (200 <=? code) = true) by lia. rewrite H200, Hhi, Hn. simpl.
  assert (H204 : (code =? 204) = false) by lia.
  assert (H205 : (code =? 205) = false) by lia. rewrite H204, H205. reflexivity.
Qed.

End RelayFacts.

Lemma POST_relay (engine : Engine) (env : Env) (fd : FormData)
    (net : Backend) (v : FormDataEntryValue) (response : Response) (errorText : string) :
  FormData_get "file" fd = Some v -> v <> EntryString "" ->
  net (backend_call env v) = inr response ->
  relayable (status response) = true ->
  text response = inr errorText ->
  POST engine env {| formData := inr fd |} net =
  ([Fetch (backend_call env v)],
   {| response_status := status response;
      response_body := error_body ("GeoAPI error: " ++ errorText) |}).
Proof.
  intros Hget Hne Hnet Hrel Htext.
  rewrite (POST_after_guard engine env fd net v Hget Hne).
  unfold try_catch, bind, fetch, await. fold (backend_call env v). rewrite Hnet.
  assert (Hok : ok response = false).
  { unfold relayable in Hrel. unfold ok. lia. }
  rewrite Hok, Htext. simpl.
  rewrite (NextResponse_json_relayable engine _ _ net Hrel). reflexivity.
Qed.

Lemma POST_pass_through (engine : Engine) (env : Env) (fd : FormData)
    (net : Backend) (v : FormDataEntryValue) (response : Response) (data : JSON) :
  FormData_get "file" fd = Some v -> v <> EntryString "" ->
  net (backend_call env v) = inr response ->
  ok response = true -> json response = inr data ->
  POST engine env {| formData := inr fd |} net =
  ([Fetch (backend_call env v)], {| response_status := 200; response_body := data |}).
Proof.
  intros Hget Hne Hnet Hok Hjson.
  rewrite (POST_after_guard engine env fd net v Hget Hne).
  unfold try_catch, bind, fetch, await. fold (backend_call env v). rewrite Hnet.
  rewrite Hok, Hjson. reflexivity.
Qed.

(** X12.  When the backend answers with a status from 300 to 599 other than
    304 and its body can be read as text, the proxy makes that one call and
    answers with the backend's own status and the body
    [{ error: "GeoAPI error: " + text }]; nothing is logged. *)
Theorem upstream_error_relayed (engine : Engine) (env : Env) (fd : FormData)
    (net : Backend) (v : FormDataEntryValue) (response : Response) (errorText : string) :
  FormData_get "file" fd = Some v -> v <> EntryString "" ->
  net (backend_call env v) = inr response ->
  relayable (status response) = true ->
  text response = inr errorText ->
  POST engine env {| formData := inr fd |} net =
  ([Fetch (backend_call env v)],
   {| response_status := status response;
      response_body := error_body ("GeoAPI error: " ++ errorText) |}).
Proof. exact (POST_relay engine env fd net v response errorText). Qed.

Lemma upstream_error_relayed_witness :
  POST Sample.engine Sample.env (Sample.upload Sample.photo)
    (Sample.always (inr Sample.bad_image))
  = ([Fetch (backend_call Sample.env (EntryFile Sample.photo))],
     {| response_status := 400;
        response_body := error_body "GeoAPI error: not an image" |}).
Proof.
  apply (upstream_error_relayed Sample.engine Sample.env
           [("file", EntryFile Sample.photo)] (Sample.always (inr Sample.bad_image))
           (EntryFile Sample.photo) Sample.bad_image "not an image").
  - reflexivity.
  - discriminate.
  - reflexivity.
  - reflexivity.
  - reflexivity.
Defined.

(** X13.  A backend status that is not 2xx and that a response with a body
    cannot carry (304, or anything outside 200..599) is not relayed: building
    the answer throws, and the proxy answers 500 "Internal Server Error"
    after its one call, logging the error. *)
Theorem unrelayable_status_becomes_500 (engine : Engine) (env : Env) (fd : FormData)
    (net : Backend) (v : FormDataEntryValue) (response : Response) (errorText : string) :
  FormData_get "file" fd = Some v -> v <> EntryString "" ->
  net (backend_call env v) = inr response ->
  ok response = false -> relayable (status response) = false ->
  text response = inr errorText ->
  exists err,
    POST engine env {| formData := inr fd |} net =
    ([Fetch (backend_call env v); ConsoleError "Proxy Error:" err],
     internal_server_error (message err)).
Proof.
  intros Hget Hne Hnet Hok Hrel Htext.
  rewrite (POST_after_guard engine env fd net v Hget Hne).
  unfold try_catch, bind, fetch, await. fold (backend_call env v). rewrite Hnet.
  rewrite Hok, Htext. simpl. unfold NextResponse_json.
  destruct (negb ((200 <=? status response) && (status response <=? 599))) eqn:Hrange.
  - eexists. reflexivity.
  - assert (H304 : (status response =? 304) = true).
    { unfold relayable in Hrel. unfold ok in Hok. lia. }
    rewrite H304, orb_true_r. eexists. reflexivity.
Qed.

Lemma unrelayable_status_becomes_500_witness :
  let not_modified := {| status := 304; text := inr "";
                         json := inl {| message := "Unexpected end of JSON input" |} |} in
  response_status
    (snd (POST Sample.engine Sample.env (Sample.upload Sample.photo)
            (Sample.always (inr not_modified)))) = 500.
Proof.
  intros not_modified.
  destruct (unrelayable_status_becomes_500 Sample.engine Sample.env
              [("file", EntryFile Sample.photo)] (Sample.always (inr not_modified))
              (EntryFile Sample.photo) not_modified "") as [err Hout].
  - reflexivity.
  - discriminate.
  - reflexivity.
  - reflexivity.
  - reflexivity.
  - reflexivity.
  - exact (f_equal (fun out => response_status (snd out)) Hout).
Defined.

(** X14.  When the backend answers 2xx and its body parses as JSON, the
    proxy makes that one call, logs nothing, and hands the parsed body to
    [NextResponse.json] with the default status 200, whichever 2xx status the
    backend used.  What the client then receives is status 200 and that body
    after serialisation: a number that is not finite arrives as [null] and
    [-0] as [0]. *)
Theorem success_passed_through (engine : Engine) (env : Env) (fd : FormData)
    (net : Backend) (v : FormDataEntryValue) (response : Response) (data : JSON) :
  FormData_get "file" fd = Some v -> v <> EntryString "" ->
  net (backend_call env v) = inr response ->
  ok response = true -> json response = inr data ->
  let out := POST engine env {| formData := inr fd |} net in
  out = ([Fetch (backend_call env v)], {| response_status := 200; response_body := data |}) /\
  status (EndToEnd.delivered engine (snd out)) = 200 /\
  json (EndToEnd.delivered engine (snd out)) = inr (EndToEnd.on_the_wire data).
Proof.
  intros Hget Hne Hnet Hok Hjson out. subst out.
  rewrite (POST_pass_through engine env fd net v response data Hget Hne Hnet Hok Hjson).
  repeat split.
Qed.

Lemma success_passed_through_witness :
  let overflow := {| status := 201; text := inr "[1e999]";
                     json := inr (JArr [JNum (S754_infinity false)]) |} in
  json (EndToEnd.delivered Sample.engine
          (snd (POST Sample.engine Sample.env (Sample.upload Sample.photo)
                  (Sample.always (inr overflow)))))
  = inr (JArr [JNull]).
Proof.
  intros overflow.
  destruct (success_passed_through Sample.engine Sample.env
              [("file", EntryFile Sample.photo)] (Sample.always (inr overflow))
              (EntryFile Sample.photo) overflow (JArr [JNum (S754_infinity false)]))
    as (_ & _ & Hjson).
  - reflexivity.
  - discriminate.
  - reflexivity.
  - reflexivity.
  - reflexivity.
  - exact Hjson.
Defined.

Lemma FormData_get_first (before after : FormData) (v : FormDataEntryValue) :
  forallb other_field before = true ->
  FormData_get "file" (before ++ ("file", v) :: after)%list = Some v.
Proof.
  induction before as [|[k x] before IH]; simpl; [reflexivity|].
  intros Hb. apply andb_prop in Hb as [Hk Hb]. unfold other_field in Hk. simpl in Hk.
  apply negb_true_iff in Hk. rewrite Hk. now apply IH.
Qed.

Lemma POST_reads_file_only (engine : Engine) (env : Env) (fd fd' : FormData)
    (net : Backend) :
  FormData_get "file" fd = FormData_get "file" fd' ->
  POST engine env {| formData := inr fd |} net
  = POST engine env {| formData := inr fd' |} net.
Proof.
  intros Hsame. unfold POST, try_catch, POST_try. cbn [formData].
  rewrite !bind_await. cbv beta zeta. rewrite Hsame. reflexivity.
Qed.

(** X15.  Of an uploaded form the proxy uses the first [file] entry and
    nothing else: fields under other names and any further [file] entries
    are neither looked at nor sent on, so the request is handled exactly as
    the form with that single entry would be. *)
Theorem only_first_file_entry_counts (engine : Engine) (env : Env)
    (before after : FormData) (v : FormDataEntryValue) (net : Backend) :
  forallb other_field before = true ->
  POST engine env {| formData := inr (before ++ ("file", v) :: after)%list |} net
  = POST engine env {| formData := inr [("file", v)] |} net.
Proof.
  intros Hb. apply POST_reads_file_only.
  rewrite (FormData_get_first before after v Hb). reflexivity.
Qed.

Lemma only_first_file_entry_counts_witness :
  POST Sample.engine Sample.env
    {| formData := inr [("caption", EntryString "beach");
                        ("file", EntryFile Sample.photo);
                        ("file", EntryFile Sample.other_photo)] |}
    (Sample.always (inr Sample.paris_reply))
  = POST Sample.engine Sample.env (Sample.upload Sample.photo)
      (Sample.always (inr Sample.paris_reply)).
Proof.
  exact (only_first_file_entry_counts Sample.engine Sample.env
           [("caption", EntryString "beach")] [("file", EntryFile Sample.other_photo)]
           (EntryFile Sample.photo) (Sample.always (inr Sample.paris_reply)) eq_refl).
Defined.

(** X16.  The proxy never makes up a success: it answers 200 only when
    the form had a [file] entry, the backend answered the call with a 2xx
    status, and the backend's body parsed as JSON; what the client receives
    is then that parsed body after serialisation. *)
Theorem ok_answer_only_from_backend (engine : Engine) (env : Env)
    (request : NextRequest) (net : Backend) :
  response_status (snd (POST engine env request net)) = 200 ->
  exists fd v response data,
    formData request = inr fd /\ FormData_get "file" fd = Some v /\
    net (backend_call env v) = inr response /\ ok response = true /\
    json response = inr data /\
    json (EndToEnd.delivered engine (snd (POST engine env request net)))
    = inr (EndToEnd.on_the_wire data).
Proof.
  destruct request as [[err|fd]].
  { unfold POST, try_catch, POST_try, bind, await. simpl. discriminate. }
  destruct (falsy_entry (FormData_get "file" fd)) eqn:Hf.
  { rewrite (POST_without_file engine env fd net Hf). simpl. discriminate. }
  destruct (FormData_get "file" fd) as [v|] eqn:Hget; [|discriminate].
  assert (Hne : v <> EntryString "") by (intros ->; discriminate).
  rewrite (POST_after_guard engine env fd net v Hget Hne).
  unfold try_catch, bind, fetch, await. fold (backend_call env v).
  destruct (net (backend_call env v)) as [err|response] eqn:Hnet; [simpl; discriminate|].
  destruct (ok response) eqn:Hok; cbn [negb].
  - destruct (json response) as [err|data] eqn:Hjson; simpl; [discriminate|].
    intros _. exists fd, v, response, data. auto 10.
  - destruct (text response) as [err|errorText]; simpl; [discriminate|].
    unfold NextResponse_json.
    destruct (negb _); simpl; [discriminate|].
    destruct (_ || _); simpl; [discriminate|].
    intros H200. unfold ok in Hok. rewrite H200 in Hok. discriminate.
Qed.

Lemma ok_answer_only_from_backend_witness :
  exists fd v response data,
    formData (Sample.upload Sample.photo) = inr fd /\
    FormData_get "file" fd = Some v /\
    Sample.always (inr Sample.paris_reply) (backend_call Sample.env v) = inr response /\
    ok response = true /\ json response = inr data /\
    json (EndToEnd.delivered Sample.engine
            (snd (POST Sample.engine Sample.env (Sample.upload Sample.photo)
                    (Sample.always (inr Sample.paris_reply)))))
    = inr (EndToEnd.on_the_wire data).
Proof.
  apply (ok_answer_only_from_backend Sample.engine Sample.env
           (Sample.upload Sample.photo) (Sample.always (inr Sample.paris_reply))).
  reflexivity.
Defined.

(** X17.  A failure is answered at once and never retried: when the form
    data cannot be read the proxy calls nothing, and when the backend call
    itself is rejected the proxy has made exactly that one call; either way
    it logs the error and answers 500 "Internal Server Error" with the
    error's message as [details]. *)
Theorem failure_is_not_retried (engine : Engine) (env : Env) (net : Backend)
    (err : JsError) :
  POST engine env {| formData := inl err |} net =
  ([ConsoleError "Proxy Error:" err], internal_server_error (message err)) /\
  (forall fd v,
     FormData_get "file" fd = Some v -> v <> EntryString "" ->
     net (backend_call env v) = inl err ->
     POST engine env {| formData := inr fd |} net =
     ([Fetch (backend_call env v); ConsoleError "Proxy Error:" err],
      internal_server_error (message err))).
Proof.
  split; [reflexivity|].
  intros fd v Hget Hne Hnet.
  rewrite (POST_after_guard engine env fd net v Hget Hne).
  unfold try_catch, bind, fetch. fold (backend_call env v). rewrite Hnet. reflexivity.
Qed.

Lemma failure_is_not_retried_witness :
  POST Sample.engine Sample.env (Sample.upload Sample.photo)
    (Sample.always Sample.unreachable)
  = ([Fetch (backend_call Sample.env (EntryFile Sample.photo));
      ConsoleError "Proxy Error:" {| message := "fetch failed" |}],
     internal_server_error "fetch failed").
Proof.
  destruct (failure_is_not_retried Sample.engine Sample.env
              (Sample.always Sample.unreachable) {| message := "fetch failed" |})
    as [_ Hcall].
  apply (Hcall [("file", EntryFile Sample.photo)] (EntryFile Sample.photo)).
  - reflexivity.
  - discriminate.
  - reflexivity.
Defined.

(** * The page and the proxy together *)

(** X18.  The file chooser path checks no media type: whatever file the
    file chooser hands over first, of whatever type, becomes the selected
    file, and a click on the action button then puts exactly one request in
    flight, whose form holds that file under the name [file]. *)
Theorem any_chosen_file_is_submitted (engine : Engine) (w : World) (file : File)
    (others : list File) (url : string) :
  reachable engine w -> loading (ui w) = false ->
  let w' := run engine w [FileChange (Some (file :: others)) url; LocateClick] in
  imageFile (ui w') = Some file /\ loading (ui w') = true /\
  inflight w' = [[("file", EntryFile file)]].
Proof.
  intros Hr Hl w'.
  pose proof (reachable_coherent engine w Hr) as Hc. unfold coherent in Hc.
  rewrite Hl in Hc. subst w'. simpl.
  unfold click_locate, submit_disabled, handleLocate_start. simpl.
  rewrite Hl, Hc. repeat split.
Qed.

Lemma any_chosen_file_is_submitted_witness :
  let notes := {| file_name := "notes.txt"; file_type := "text/plain";
                  file_content := "hello" |} in
  inflight (run Sample.engine start [FileChange (Some [notes]) "blob:1"; LocateClick])
  = [[("file", EntryFile notes)]].
Proof.
  intros notes.
  apply (any_chosen_file_is_submitted Sample.engine start notes [] "blob:1").
  - constructor.
  - reflexivity.
Defined.

(** X19.  End to end, for every submission in flight: when the backend
    answers the proxy with a status from 300 to 599 other than 304 and a
    readable body, the page ends in the Error state and its banner reads
    "GeoAPI error: " followed by the backend's body text, with no result
    panel. *)
Theorem upstream_error_reaches_banner (engine : Engine) (env : Env) (net : Backend)
    (w : World) (i : nat) (body : FormData) (response : Response) (errorText : string) :
  reachable engine w -> inflight w !! i = Some body ->
  (forall c, net c = inr response) ->
  relayable (status response) = true -> text response = inr errorText ->
  let w' := step engine w (FetchSettles i (EndToEnd.via_proxy engine env net body)) in
  in_error_state (ui w') ("GeoAPI error: " ++ errorText) /\
  exists view, render engine (ui w') = inr view /\
               error_banner view = Some ("GeoAPI error: " ++ errorText) /\
               result_section view = NoPanel.
Proof.
  intros Hr Hi Hnet Hrel Htext w'.
  destruct (inflight_inv engine w i body Hr Hi) as (_ & [file Hbody] & _).
  assert (Htry : handleLocate_try engine (EndToEnd.via_proxy engine env net body)
                 = inl {| message := "GeoAPI error: " ++ errorText |}).
  { unfold EndToEnd.via_proxy. rewrite Hbody.
    rewrite (POST_relay engine env [("file", EntryFile file)] net (EntryFile file)
               response errorText eq_refl ltac:(discriminate) (Hnet _) Hrel Htext).
    unfold handleLocate_try, EndToEnd.delivered, ok. cbn [snd status response_status].
    assert (Hok : (200 <=? status response) && (status response <=? 299) = false)
      by (unfold relayable in Hrel; lia).
    rewrite Hok. reflexivity. }
  destruct (settle_failure engine w i body _ _ Hr Hi Htry) as (He & Hres & Hl & Hview).
  split; [|exact Hview]. repeat split; try assumption. discriminate.
Qed.

Lemma upstream_error_reaches_banner_witness :
  in_error_state
    (ui (step Sample.engine Sample.submitted
           (FetchSettles 0
              (EndToEnd.via_proxy Sample.engine Sample.env
                 (Sample.always (inr Sample.bad_image))
                 [("file", EntryFile Sample.photo)]))))
    "GeoAPI error: not an image".
Proof.
  apply (upstream_error_reaches_banner Sample.engine Sample.env
           (Sample.always (inr Sample.bad_image)) Sample.submitted 0
           [("file", EntryFile Sample.photo)] Sample.bad_image "not an image").
  - apply reachable_run. constructor.
  - reflexivity.
  - reflexivity.
  - reflexivity.
  - reflexivity.
Defined.

(** X20.  End to end, for every submission in flight: when the backend
    answers the proxy 2xx with a body that parses as JSON, that body, as it
    arrives after serialisation, becomes the stored result; the spinner
    stops and the error cell is not touched. *)
Theorem backend_result_reaches_page (engine : Engine) (env : Env) (net : Backend)
    (w : World) (i : nat) (body : FormData) (response : Response) (data : JSON) :
  reachable engine w -> inflight w !! i = Some body ->
  (forall c, net c = inr response) ->
  ok response = true -> json response = inr data ->
  let w' := step engine w (FetchSettles i (EndToEnd.via_proxy engine env net body)) in
  result (ui w') = EndToEnd.on_the_wire data /\
  error (ui w') = error (ui w) /\ loading (ui w') = false /\ inflight w' = [].
Proof.
  intros Hr Hi Hnet Hok Hjson w'.
  destruct (inflight_inv engine w i body Hr Hi) as (_ & [file Hbody] & _).
  assert (Htry : handleLocate_try engine (EndToEnd.via_proxy engine env net body)
                 = inr (EndToEnd.on_the_wire data)).
  { unfold EndToEnd.via_proxy. rewrite Hbody.
    rewrite (POST_pass_through engine env [("file", EntryFile file)] net
               (EntryFile file) response data eq_refl ltac:(discriminate) (Hnet _)
               Hok Hjson).
    reflexivity. }
  subst w'. rewrite (settle_inflight engine w i body _ Hr Hi). cbn [ui inflight].
  rewrite (settle_fulfilled engine _ _ _ Htry). repeat split.
Qed.

Lemma backend_result_reaches_page_witness :
  result (ui (step Sample.engine Sample.submitted
                (FetchSettles 0
                   (EndToEnd.via_proxy Sample.engine Sample.env
                      (Sample.always (inr Sample.paris_reply))
                      [("file", EntryFile Sample.photo)]))))
  = EndToEnd.on_the_wire Sample.paris.
Proof.
  apply (backend_result_reaches_page Sample.engine Sample.env
           (Sample.always (inr Sample.paris_reply)) Sample.submitted 0
           [("file", EntryFile Sample.photo)] Sample.paris_reply Sample.paris).
  - apply reachable_run. constructor.
  - reflexivity.
  - reflexivity.
  - reflexivity.
  - reflexivity.
Defined.

(** * Files from the clipboard *)

Lemma clipboard_image_is_image (items : list ClipboardItem) (file : File) :
  clipboard_image items = inr (Some file) ->
  is_image_type (file_type file) = true /\ file_name file = "pasted-image.png".
Proof.
  induction items as [|item items IH]; simpl; [discriminate|].
  destruct (List.find is_image_type (types item)) as [imageType|] eqn:Hfind; [|exact IH].
  destruct (getType item imageType) as [err|blob]; [discriminate|].
  intros [= <-]. simpl. split; [|reflexivity].
  now destruct (List.find_some _ _ Hfind).
Qed.

(** X22.  A clipboard event never installs a file that is not an image:
    after Ctrl+V or a click on the Paste button, the selected file is either
    the one that was selected before or a file whose type starts with
    "image/"; and a file newly selected by the Paste button is named
    "pasted-image.png". *)
Theorem clipboard_files_are_images (engine : Engine) (w : World) (ev : Event)
    (file : File) :
  from_clipboard ev = true ->
  imageFile (ui (step engine w ev)) = Some file ->
  imageFile (ui w) = Some file \/
  (is_image_type (file_type file) = true /\
   forall clipboard url, ev = PasteClick clipboard url ->
                         file_name file = "pasted-image.png").
Proof.
  destruct ev as [files u|files u|clipboard u| |i fetched]; try discriminate; intros _.
  - simpl. destruct files as [[|first others]|]; simpl; auto.
    destruct (is_image_type (file_type first)) eqn:Himg; simpl; auto.
    intros [= <-]. right. split; [exact Himg|]. discriminate.
  - simpl. unfold onPasteClick, onPasteClick_try.
    destruct clipboard as [err|items]; simpl; auto.
    destruct (clipboard_image items) as [err|[f|]] eqn:Himg; simpl; auto.
    intros [= <-]. right.
    destruct (clipboard_image_is_image items f Himg) as [Htype Hname].
    split; [exact Htype|]. intros _ _ _. exact Hname.
Qed.

Lemma clipboard_files_are_images_witness :
  let item := {| types := ["text/html"; "image/png"];
                 getType := fun t => inr {| blob_type := t; blob_content := "PNG" |} |} in
  let pasted := {| file_name := "pasted-image.png"; file_type := "image/png";
                   file_content := "PNG" |} in
  imageFile (ui (step Sample.engine Sample.submitted (PasteClick (inr [item]) "blob:5")))
  = Some pasted /\
  is_image_type (file_type pasted) = true.
Proof.
  intros item pasted. split; [reflexivity|].
  destruct (clipboard_files_are_images Sample.engine Sample.submitted
              (PasteClick (inr [item]) "blob:5") pasted eq_refl eq_refl)
    as [Hsame|[Htype _]].
  - discriminate Hsame.
  - exact Htype.
Defined.
